(** * A shallow embedding of [banking_system.py]

    The two classes of the program, [BankAccount] and [BankingSystem], are
    embedded as state-passing functions over an explicit object store.

    - Python objects are mutable and shared: [BankAccount.transfer] receives
      two references that may denote the same object.  Account objects
      therefore live in a store ([heap]) and are named by references
      ([loc]); the dictionary [BankingSystem.accounts] maps account numbers
      to references.
    - A [raise] aborts the call and leaves the store as it is at that point;
      every operation returns its outcome together with the store.
    - [datetime.now()] is an input: each call that reads the clock takes the
      reading(s) as arguments, in the order in which the code reads them.
    - Amounts are exact integers (Python [int]); the rounding of [float]
      amounts is outside the model.
    - NumPy computes where the code calls it: [np.sum] adds a list of
      integers in [int64] and wraps around, [np.mean] divides in
      [float64].  Both are modelled on the lists for which NumPy's result
      does not depend on its choice of array type or of summation order,
      and give [NotModelled] elsewhere.
    - The pickle file is the field [file]: [None] before the first
      [_save_data], afterwards the last dictionary written, by value. *)

From Stdlib Require Import ZArith QArith String Ascii List Lia.
From Stdlib Require SpecFloat.
From stdpp Require Import gmap strings list fin_maps.

#[local] Open Scope Z_scope.
#[local] Open Scope string_scope.

(** ** Clock readings and [strftime] *)

Record datetime := mk_datetime {
  year : nat; month : nat; day : nat;
  hour : nat; minute : nat; second : nat;
  microsecond : nat
}.

Definition digit (n : nat) : ascii := ascii_of_nat (48 + n mod 10).

(** [%m], [%d], [%H], [%M], [%S]: two decimal digits, zero padded. *)
Definition pad2 (n : nat) : string :=
  String (digit (n / 10)) (String (digit n) EmptyString).

(** [%Y]: four decimal digits, zero padded (years run from 1 to 9999). *)
Definition pad4 (n : nat) : string :=
  String (digit (n / 1000)) (String (digit (n / 100)) (pad2 n)).

(** [d.strftime("%Y%m%d%H%M%S")]; the microseconds are not printed. *)
Definition strftime_YmdHMS (d : datetime) : string :=
  pad4 (year d) +:+ pad2 (month d) +:+ pad2 (day d) +:+
  pad2 (hour d) +:+ pad2 (minute d) +:+ pad2 (second d).

(** ** Data *)

(** The dictionary built by [_record_transaction]; the key
    ["other_account"] is present only for transfers. *)
Record Transaction := mk_transaction {
  date : datetime;
  type : string;
  amount : Z;
  balance_after : Z;
  other_account : option string
}.

Record BankAccount := mk_account {
  account_holder_name : string;
  account_number : string;
  account_type : string;
  balance : Z;
  transaction_history : list Transaction;
  password : option string
}.

Definition set_balance (b : Z) (a : BankAccount) : BankAccount :=
  mk_account (account_holder_name a) (account_number a) (account_type a)
             b (transaction_history a) (password a).

Definition append_transaction (t : Transaction) (a : BankAccount) : BankAccount :=
  mk_account (account_holder_name a) (account_number a) (account_type a)
             (balance a) (transaction_history a ++ [t]) (password a).

Definition loc := positive.

Record State := mk_state {
  heap : gmap loc BankAccount;
  accounts : gmap string loc;
  file : option (gmap string BankAccount)
}.

(** The account a number denotes in the dictionary. *)
Definition account_at (s : State) (number : string) : option BankAccount :=
  accounts s !! number ≫= λ l, heap s !! l.

(** ** Exceptions and the state monad *)

(** Every [raise] of the two classes is a [ValueError] with a message.
    [NoObject] belongs to the model only: it is the outcome of following a
    reference that names no object, which no Python execution does. *)
Inductive exn :=
| ValueError (msg : string)
| NoObject.

Inductive result (A : Type) :=
| Return (a : A)
| Raise (e : exn).
Arguments Return {A} a.
Arguments Raise {A} e.

Definition M (A : Type) : Type := State → result A * State.

#[global] Instance M_ret : MRet M := λ A a s, (Return a, s).
#[global] Instance M_bind : MBind M := λ A B f m s,
  match m s with
  | (Return a, s') => f a s'
  | (Raise e, s') => (Raise e, s')
  end.

Definition raise {A} (e : exn) : M A := λ s, (Raise e, s).

Definition get_obj (l : loc) : M BankAccount := λ s,
  match heap s !! l with
  | Some a => (Return a, s)
  | None => (Raise NoObject, s)
  end.

Definition set_obj (l : loc) (a : BankAccount) : M unit := λ s,
  (Return tt, mk_state (<[l := a]> (heap s)) (accounts s) (file s)).

Definition new_obj (a : BankAccount) : M loc := λ s,
  let l := fresh (dom (heap s)) in
  (Return l, mk_state (<[l := a]> (heap s)) (accounts s) (file s)).

(** Python truthiness of a value that is [None] or a string. *)
Definition truthy (o : option string) : bool :=
  match o with
  | Some (String _ _) => true
  | _ => false
  end.

(** The names the specification gives to the failures (its section 7),
    read off the messages of the [raise] statements. *)
Inductive error_kind :=
| InvalidInput | InvalidAmount | InsufficientFunds | NotFound | Unauthorized.

Definition kind_of (e : exn) : option error_kind :=
  match e with
  | ValueError msg =>
      if decide (msg = "Account holder name and type are required") then Some InvalidInput
      else if decide (msg = "Initial balance cannot be negative") then Some InvalidInput
      else if decide (msg = "Deposit amount must be positive") then Some InvalidAmount
      else if decide (msg = "Withdrawal amount must be positive") then Some InvalidAmount
      else if decide (msg = "Transfer amount must be positive") then Some InvalidAmount
      else if decide (msg = "Insufficient funds") then Some InsufficientFunds
      else if decide (msg = "Insufficient funds for transfer") then Some InsufficientFunds
      else if decide (msg = "Account not found") then Some NotFound
      else if decide (msg = "Source account not found") then Some NotFound
      else if decide (msg = "Target account not found") then Some NotFound
      else if decide (msg = "Invalid password") then Some Unauthorized
      else None
  | NoObject => None
  end.

(** ** class BankAccount *)

(** The dictionary returned by [get_account_details]. *)
Module Details.
Record t := mk {
  account_holder_name : string;
  account_number : string;
  account_type : string;
  balance : Z
}.
End Details.

Module BankAccount.

Definition _generate_account_number (now : datetime) : string :=
  "ACC" +:+ strftime_YmdHMS now.

Definition _record_transaction (self : loc) (transaction_type : string)
    (amount : Z) (other_account : option string) (now : datetime) : M unit :=
  a ← get_obj self;
  let transaction :=
    mk_transaction now transaction_type amount (balance a)
      (if truthy other_account then other_account else None) in
  set_obj self (append_transaction transaction a).

(** [BankAccount(...)]: [now_number] is the clock reading of
    [_generate_account_number], [now_record] the one of the initial
    [_record_transaction] (read only when [initial_balance > 0]). *)
Definition __init__ (account_holder_name account_type : string)
    (initial_balance : Z) (password : option string)
    (now_number now_record : datetime) : M loc :=
  self ← new_obj (mk_account account_holder_name
                    (_generate_account_number now_number)
                    account_type initial_balance [] password);
  (if bool_decide (initial_balance > 0)
   then _record_transaction self "deposit" initial_balance None now_record
   else mret tt);;
  mret self.

Definition deposit (self : loc) (amount : Z) (now : datetime) : M bool :=
  if bool_decide (amount <= 0)
  then raise (ValueError "Deposit amount must be positive")
  else
    a ← get_obj self;
    set_obj self (set_balance (balance a + amount) a);;
    _record_transaction self "deposit" amount None now;;
    mret true.

Definition withdraw (self : loc) (amount : Z) (now : datetime) : M bool :=
  if bool_decide (amount <= 0)
  then raise (ValueError "Withdrawal amount must be positive")
  else
    a ← get_obj self;
    if bool_decide (amount > balance a)
    then raise (ValueError "Insufficient funds")
    else
      set_obj self (set_balance (balance a - amount) a);;
      _record_transaction self "withdrawal" amount None now;;
      mret true.

(** [now_out] and [now_in] are the clock readings of the two records.
    The target is read again after the source has been written: the two
    references may name one object. *)
Definition transfer (self : loc) (amount : Z) (target_account : loc)
    (now_out now_in : datetime) : M bool :=
  if bool_decide (amount <= 0)
  then raise (ValueError "Transfer amount must be positive")
  else
    a ← get_obj self;
    if bool_decide (amount > balance a)
    then raise (ValueError "Insufficient funds for transfer")
    else
      set_obj self (set_balance (balance a - amount) a);;
      t ← get_obj target_account;
      _record_transaction self "transfer_out" amount (Some (account_number t)) now_out;;
      t ← get_obj target_account;
      set_obj target_account (set_balance (balance t + amount) t);;
      a ← get_obj self;
      _record_transaction target_account "transfer_in" amount (Some (account_number a)) now_in;;
      mret true.

Definition get_account_details (self : loc) : M Details.t :=
  a ← get_obj self;
  mret (Details.mk (account_holder_name a) (account_number a)
          (account_type a) (balance a)).

Definition get_transaction_history (self : loc) : M (list Transaction) :=
  a ← get_obj self;
  mret (transaction_history a).

End BankAccount.

(** ** [get_summary_statistics] *)

(** The sum of a list of integers. *)
Definition sum_Z (l : list Z) : Z := foldr Z.add 0 l.

(** The values of the dictionary returned by [get_summary_statistics]: the
    literal [0], a [numpy.int64] or a [numpy.float64].  [NotModelled]
    stands for a result of NumPy that this model does not determine. *)
Inductive number :=
| PyInt (z : Z)
| NpInt64 (z : Z)
| NpFloat64 (f : SpecFloat.spec_float)
| NotModelled.

Record Summary := mk_summary {
  total_deposits : number;
  total_withdrawals : number;
  average_deposit : number;
  average_withdrawal : number;
  total_transactions : nat
}.

(** The range of [int64] and the value an [int64] addition wraps to. *)
Definition in_int64 (z : Z) : bool := Z.leb (- 2 ^ 63) z && Z.ltb z (2 ^ 63).

Definition wrap_int64 (z : Z) : Z := (z + 2 ^ 63) mod 2 ^ 64 - 2 ^ 63.

(** [float64] arithmetic: IEEE 754 binary64, rounding to nearest even. *)
Definition float64_of_Z (z : Z) : SpecFloat.spec_float :=
  SpecFloat.binary_normalize 53 1024 z 0 false.

Definition float64_div (x y : SpecFloat.spec_float) : SpecFloat.spec_float :=
  SpecFloat.SFdiv 53 1024 x y.

(** [np.sum(l)] for a list of Python integers.  The empty list makes an
    empty [float64] array, whose sum is [0.0].  A list of integers that
    all fit [int64] makes an [int64] array, and the sum is computed in
    [int64], wrapping around.  Any other list makes an array of another
    type. *)
Definition np_sum (l : list Z) : number :=
  match l with
  | [] => NpFloat64 (SpecFloat.S754_zero false)
  | _ =>
      if forallb in_int64 l
      then NpInt64 (wrap_int64 (sum_Z l))
      else NotModelled
  end.

(** [np.mean(l)] for a list of Python integers: the elements are converted
    to [float64] and added, and the sum is divided by the number of
    elements.  When the absolute values of the elements add up to at most
    [2^53], every conversion and every partial sum, in whatever order
    NumPy adds, is an integer of at most that size and is exact, so that
    only the division rounds.  The mean of the empty list is [nan]. *)
Definition np_mean (l : list Z) : number :=
  match l with
  | [] => NpFloat64 SpecFloat.S754_nan
  | _ =>
      if Z.leb (sum_Z (Z.abs <$> l)) (2 ^ 53)
      then NpFloat64 (float64_div (float64_of_Z (sum_Z l))
                                  (float64_of_Z (Z.of_nat (length l))))
      else NotModelled
  end.

(** [[t["amount"] for t in history if t["type"] in kinds]] *)
Definition amounts_of (kinds : list string) (history : list Transaction) : list Z :=
  amount <$> filter (λ t, type t ∈ kinds) history.

Definition is_empty {A} (l : list A) : bool :=
  match l with [] => true | _ => false end.

Definition get_summary_statistics (a : BankAccount) : Summary :=
  if is_empty (transaction_history a)
  then mk_summary (PyInt 0) (PyInt 0) (PyInt 0) (PyInt 0) 0
  else
    let deposits := amounts_of ["deposit"; "transfer_in"] (transaction_history a) in
    let withdrawals := amounts_of ["withdrawal"; "transfer_out"] (transaction_history a) in
    mk_summary
      (if is_empty deposits then PyInt 0 else np_sum deposits)
      (if is_empty withdrawals then PyInt 0 else np_sum withdrawals)
      (if is_empty deposits then PyInt 0 else np_mean deposits)
      (if is_empty withdrawals then PyInt 0 else np_mean withdrawals)
      (length (transaction_history a)).

(** ** class BankingSystem *)

(** What [_load_data] finds under [self.data_file]: no file, a file on
    which [pickle.load] raises [PickleError] or [EOFError], or a pickled
    dictionary of accounts. *)
Inductive data_file :=
| NoFile
| Unreadable
| Pickle (d : gmap string BankAccount).

Module BankingSystem.

(** What [pickle.dump(self.accounts, file)] writes: the dictionary with
    every account by value. *)
Definition pickled (s : State) : gmap string BankAccount :=
  omap (λ l, heap s !! l) (accounts s).

Definition _save_data : M unit := λ s,
  (Return tt, mk_state (heap s) (accounts s) (Some (pickled s))).

Definition get_accounts : M (gmap string loc) := λ s, (Return (accounts s), s).

(** [self.accounts[number] = account] *)
Definition set_account (number : string) (account : loc) : M unit := λ s,
  (Return tt, mk_state (heap s) (<[number := account]> (accounts s)) (file s)).

Definition create_account (account_holder_name account_type : string)
    (initial_balance : Z) (password : option string)
    (now_number now_record : datetime) : M string :=
  if bool_decide (account_holder_name = "") || bool_decide (account_type = "")
  then raise (ValueError "Account holder name and type are required")
  else if bool_decide (initial_balance < 0)
  then raise (ValueError "Initial balance cannot be negative")
  else
    account ← BankAccount.__init__ account_holder_name account_type
                initial_balance password now_number now_record;
    a ← get_obj account;
    set_account (account_number a) account;;
    _save_data;;
    mret (account_number a).

Definition get_account (number : string) (password_arg : option string) : M loc :=
  accs ← get_accounts;
  match accs !! number with
  | None => raise (ValueError "Account not found")
  | Some account =>
      a ← get_obj account;
      if truthy (password a) && bool_decide (password a ≠ password_arg)
      then raise (ValueError "Invalid password")
      else mret account
  end.

Definition deposit (number : string) (amount : Z) (now : datetime) : M bool :=
  account ← get_account number None;
  result ← BankAccount.deposit account amount now;
  _save_data;;
  mret result.

Definition withdraw (number : string) (amount : Z) (now : datetime) : M bool :=
  account ← get_account number None;
  result ← BankAccount.withdraw account amount now;
  _save_data;;
  mret result.

Definition transfer (from_account_number to_account_number : string)
    (amount : Z) (now_out now_in : datetime) : M bool :=
  accs ← get_accounts;
  match accs !! from_account_number with
  | None => raise (ValueError "Source account not found")
  | Some from_account =>
      match accs !! to_account_number with
      | None => raise (ValueError "Target account not found")
      | Some to_account =>
          result ← BankAccount.transfer from_account amount to_account now_out now_in;
          _save_data;;
          mret result
      end
  end.

(** [BankingSystem()] when the data file does not exist. *)
Definition empty : State := mk_state ∅ ∅ None.

Definition get_account_details (number : string) : M Details.t :=
  account ← get_account number None;
  BankAccount.get_account_details account.

Definition get_transaction_history (number : string) : M (list Transaction) :=
  account ← get_account number None;
  BankAccount.get_transaction_history account.

Definition get_summary_statistics (number : string) : M Summary :=
  account ← get_account number None;
  a ← get_obj account;
  mret (get_summary_statistics a).

Definition _load_data (f : data_file) : gmap string BankAccount :=
  match f with
  | NoFile => ∅
  | Unreadable => ∅
  | Pickle d => d
  end.

(** Unpickling one entry of the dictionary makes a new object. *)
Definition load_entry (hd : gmap loc BankAccount * gmap string loc)
    (entry : string * BankAccount) : gmap loc BankAccount * gmap string loc :=
  let l := fresh (dom hd.1) in
  (<[l := entry.2]> hd.1, <[entry.1 := l]> hd.2).

(** [BankingSystem()] in a new process: the objects that exist afterwards
    and the dictionary [self.accounts], both made by unpickling what
    [_load_data] returns. *)
Definition __init__ (f : data_file) : gmap loc BankAccount * gmap string loc :=
  foldl load_entry (∅, ∅) (map_to_list (_load_data f)).

End BankingSystem.

(** ** Sequences of calls

    A caller such as [main] issues one call after the other and catches
    the [ValueError] of a rejected one; the ledger stays in use. *)
Inductive call :=
| CreateAccount (name type : string) (initial : Z) (pw : option string)
                (now_number now_record : datetime)
| Deposit (number : string) (amount : Z) (now : datetime)
| Withdraw (number : string) (amount : Z) (now : datetime)
| Transfer (from to : string) (amount : Z) (now_out now_in : datetime).

Definition run_call (c : call) (s : State) : State :=
  match c with
  | CreateAccount n t i p d1 d2 => (BankingSystem.create_account n t i p d1 d2 s).2
  | Deposit n a d => (BankingSystem.deposit n a d s).2
  | Withdraw n a d => (BankingSystem.withdraw n a d s).2
  | Transfer f t a d1 d2 => (BankingSystem.transfer f t a d1 d2 s).2
  end.

Definition run_calls (cs : list call) (s : State) : State :=
  foldl (λ s c, run_call c s) s cs.

(** A sequence of [deposit] and [withdraw] calls on one account. *)
Inductive account_call :=
| ADeposit (amount : Z) (now : datetime)
| AWithdraw (amount : Z) (now : datetime).

Definition run_account_call (self : loc) (c : account_call) : M bool :=
  match c with
  | ADeposit amt now => BankAccount.deposit self amt now
  | AWithdraw amt now => BankAccount.withdraw self amt now
  end.

Fixpoint run_account_calls (self : loc) (cs : list account_call) : M unit :=
  match cs with
  | [] => mret tt
  | c :: cs' => run_account_call self c;; run_account_calls self cs'
  end.

(** * Vocabulary of the statements *)

(** ** Outcomes and results of the operations *)

(** [rejects m s k]: run in [s], the call [m] raises an exception of kind
    [k] and the whole state is as before. *)
Definition rejects {A} (m : M A) (s : State) (k : error_kind) : Prop :=
  ∃ e, m s = (Raise e, s) ∧ kind_of e = Some k.

(** The account has a credential set: the test [if account.password] of
    [get_account] and of [main]. *)
Definition has_password (a : BankAccount) : Prop := truthy (password a) = true.

(** The records the four operations append. *)
Definition deposit_record (now : datetime) (amt : Z) (a : BankAccount) : Transaction :=
  mk_transaction now "deposit" amt (balance a + amt) None.
Definition withdrawal_record (now : datetime) (amt : Z) (a : BankAccount) : Transaction :=
  mk_transaction now "withdrawal" amt (balance a - amt) None.
Definition transfer_out_record (now : datetime) (amt : Z) (a : BankAccount)
    (counterparty : string) : Transaction :=
  mk_transaction now "transfer_out" amt (balance a - amt)
    (if truthy (Some counterparty) then Some counterparty else None).
Definition transfer_in_record (now : datetime) (amt : Z) (a : BankAccount)
    (counterparty : string) : Transaction :=
  mk_transaction now "transfer_in" amt (balance a + amt)
    (if truthy (Some counterparty) then Some counterparty else None).

(** The account after a successful operation. *)
Definition deposited (now : datetime) (amt : Z) (a : BankAccount) : BankAccount :=
  append_transaction (deposit_record now amt a) (set_balance (balance a + amt) a).
Definition withdrawn (now : datetime) (amt : Z) (a : BankAccount) : BankAccount :=
  append_transaction (withdrawal_record now amt a) (set_balance (balance a - amt) a).
Definition debited (now : datetime) (amt : Z) (counterparty : string)
    (a : BankAccount) : BankAccount :=
  append_transaction (transfer_out_record now amt a counterparty)
    (set_balance (balance a - amt) a).
Definition credited (now : datetime) (amt : Z) (counterparty : string)
    (a : BankAccount) : BankAccount :=
  append_transaction (transfer_in_record now amt a counterparty)
    (set_balance (balance a + amt) a).

Definition with_heap (h : gmap loc BankAccount) (s : State) : State :=
  mk_state h (accounts s) (file s).

(** The state after [_save_data]. *)
Definition saved (s : State) : State :=
  mk_state (heap s) (accounts s) (Some (BankingSystem.pickled s)).

(** The object [BankAccount(name, type, initial, pw)] builds. *)
Definition opened (name type : string) (initial : Z) (pw : option string)
    (now_number now_record : datetime) : BankAccount :=
  let a := mk_account name (BankAccount._generate_account_number now_number)
             type initial [] pw in
  if bool_decide (initial > 0)
  then append_transaction (mk_transaction now_record "deposit" initial initial None) a
  else a.

(** ** Invariants of the ledger *)

(** The sign with which a record counts towards the balance. *)
Definition signed (t : Transaction) : Z :=
  if bool_decide (type t ∈ ["deposit"; "transfer_in"]) then amount t
  else if bool_decide (type t ∈ ["withdrawal"; "transfer_out"]) then - amount t
  else 0.

(** The balance is the sum of the signed amounts of the history. *)
Definition balanced (a : BankAccount) : Prop :=
  balance a = sum_Z (signed <$> transaction_history a).

(** Every number of the dictionary names an object of the store, and that
    object carries the number, which is not the empty string. *)
Definition well_formed (s : State) : Prop :=
  ∀ n l, accounts s !! n = Some l →
    ∃ a, heap s !! l = Some a ∧ account_number a = n ∧ n ≠ "".

Definition ledger_inv (s : State) : Prop :=
  well_formed s ∧ ∀ l a, heap s !! l = Some a → balanced a.

(** ** Statements of the specification *)

(** The outcome of the ledger's [transfer], as the specification words it:
    either the call succeeds, the source gets one [transfer_out] record and
    the target one [transfer_in] record, with the same amount and each with
    the number of the other account, and the balances move by the amount;
    or the call is rejected and nothing has changed. *)
Definition two_records_or_none (s : State) (from to : string) (amt : Z)
    (now_out now_in : datetime) : Prop :=
  let '(r, s') := BankingSystem.transfer from to amt now_out now_in s in
  (r = Return true ∧
   ∃ a b a' b',
     account_at s from = Some a ∧ account_at s to = Some b ∧
     account_at s' from = Some a' ∧ account_at s' to = Some b' ∧
     transaction_history a' = (transaction_history a ++
       [mk_transaction now_out "transfer_out" amt (balance a - amt) (Some to)])%list ∧
     transaction_history b' = (transaction_history b ++
       [mk_transaction now_in "transfer_in" amt (balance b + amt) (Some from)])%list ∧
     balance a' = balance a - amt ∧ balance b' = balance b + amt)
  ∨ (∃ e, r = Raise e ∧ s' = s).

(** The account types the specification admits, which are the ones [main]
    lets through before it calls [create_account]. *)
Definition savings_or_current (account_type : string) : Prop :=
  account_type = "savings" ∨ account_type = "current".

(** What [create_account] does on an accepted input: it returns the number
    of the new account, the ledger holds the new account under it, and the
    file holds the ledger. *)
Definition opens_account (s : State) (name type : string) (initial : Z)
    (pw : option string) (now_number now_record : datetime) : Prop :=
  ∃ s', BankingSystem.create_account name type initial pw now_number now_record s =
          (Return (BankAccount._generate_account_number now_number), s') ∧
        account_at s' (BankAccount._generate_account_number now_number) =
          Some (opened name type initial pw now_number now_record) ∧
        file s' = Some (BankingSystem.pickled s').

(** C8 as the specification states it, with [savings_or_current] as the
    condition on the account type. *)
Definition create_account_as_specified (s : State) (name type : string)
    (initial : Z) (pw : option string) (now_number now_record : datetime) : Prop :=
  let accepted := name ≠ "" ∧ savings_or_current type ∧ 0 <= initial in
  (¬ accepted →
     rejects (BankingSystem.create_account name type initial pw now_number now_record)
       s InvalidInput) ∧
  (accepted → opens_account s name type initial pw now_number now_record).

(** The statistics as the specification words them, computed from the log
    alone: the total of the amounts of the records whose kind is among
    [kinds], their number, and their mean, which is 0 when there is none. *)
Fixpoint total_of (kinds : list string) (log : list Transaction) : Z :=
  match log with
  | [] => 0
  | t :: log' =>
      (if bool_decide (type t ∈ kinds) then amount t else 0) + total_of kinds log'
  end.

Fixpoint count_of (kinds : list string) (log : list Transaction) : nat :=
  match log with
  | [] => O
  | t :: log' =>
      ((if bool_decide (type t ∈ kinds) then 1 else 0) + count_of kinds log')%nat
  end.

Definition mean_of (kinds : list string) (log : list Transaction) : Q :=
  match count_of kinds log with
  | O => inject_Z 0
  | S _ => Qdiv (inject_Z (total_of kinds log))
                (inject_Z (Z.of_nat (count_of kinds log)))
  end.

(** The integer a number of the dictionary is, and its value as a
    rational number; infinities and [nan] have none. *)
Definition int_value (x : number) : option Z :=
  match x with
  | PyInt z => Some z
  | NpInt64 z => Some z
  | _ => None
  end.

Definition float64_value (f : SpecFloat.spec_float) : option Q :=
  match f with
  | SpecFloat.S754_zero _ => Some (inject_Z 0)
  | SpecFloat.S754_finite sign m e =>
      Some (Qmult (inject_Z (if sign then Z.neg m else Z.pos m))
                  (Qpower (inject_Z 2) e))
  | _ => None
  end.

Definition value (x : number) : option Q :=
  match x with
  | PyInt z => Some (inject_Z z)
  | NpInt64 z => Some (inject_Z z)
  | NpFloat64 f => float64_value f
  | NotModelled => None
  end.

Definition has_value (x : number) (q : Q) : Prop :=
  ∃ q', value x = Some q' ∧ Qeq q' q.

(** C7 as the specification states it: the totals are the sums, the
    averages are the arithmetic means, and the number of transactions is
    the length of the log. *)
Definition statistics_as_specified (log : list Transaction) (st : Summary) : Prop :=
  int_value (total_deposits st) = Some (total_of ["deposit"; "transfer_in"] log) ∧
  int_value (total_withdrawals st) =
    Some (total_of ["withdrawal"; "transfer_out"] log) ∧
  has_value (average_deposit st) (mean_of ["deposit"; "transfer_in"] log) ∧
  has_value (average_withdrawal st) (mean_of ["withdrawal"; "transfer_out"] log) ∧
  total_transactions st = length log.

(** The integers and their sum fit [int64]. *)
Definition fits_int64 (l : list Z) : Prop :=
  forallb in_int64 l = true ∧ in_int64 (sum_Z l) = true.

(** The mean as [float64] arithmetic gives it: the quotient of the sum by
    the number of amounts, rounded to the nearest [float64]; the literal
    [0] when there is no amount. *)
Definition rounded_mean (kinds : list string) (log : list Transaction) : number :=
  match count_of kinds log with
  | O => PyInt 0
  | S _ => NpFloat64 (float64_div (float64_of_Z (total_of kinds log))
                        (float64_of_Z (Z.of_nat (count_of kinds log))))
  end.

(** The amounts are valid: each is positive, and each withdrawal is covered
    by the balance at the time of the call, which starts at [b]. *)
Fixpoint valid_amounts (b : Z) (cs : list account_call) : Prop :=
  match cs with
  | [] => True
  | ADeposit amt _ :: cs' => 0 < amt ∧ valid_amounts (b + amt) cs'
  | AWithdraw amt _ :: cs' => 0 < amt <= b ∧ valid_amounts (b - amt) cs'
  end.

Fixpoint sum_deposits (cs : list account_call) : Z :=
  match cs with
  | [] => 0
  | ADeposit amt _ :: cs' => amt + sum_deposits cs'
  | AWithdraw _ _ :: cs' => sum_deposits cs'
  end.

Fixpoint sum_withdrawals (cs : list account_call) : Z :=
  match cs with
  | [] => 0
  | ADeposit _ _ :: cs' => sum_withdrawals cs'
  | AWithdraw amt _ :: cs' => amt + sum_withdrawals cs'
  end.

(** ** Example ledgers *)

(** Clock readings used in the examples: two within one second, one in the
    next second. *)
Definition noon : datetime := mk_datetime 2024 3 15 12 0 0 0.
Definition noon_and_a_bit : datetime := mk_datetime 2024 3 15 12 0 0 731.
Definition noon_plus_1s : datetime := mk_datetime 2024 3 15 12 0 1 0.

(** A ledger with the single account ["ACC20240315120000"], balance 100. *)
Definition ledger_of_one : State :=
  run_calls [CreateAccount "Ann" "savings" 100 None noon noon] BankingSystem.empty.

(** A ledger with two accounts opened in different seconds:
    ["ACC20240315120000"] with 1000 and ["ACC20240315120001"] with 0. *)
Definition ledger_of_two : State :=
  run_calls [CreateAccount "Ann" "savings" 1000 None noon noon;
             CreateAccount "Bob" "current" 0 (Some "s3cret") noon_plus_1s noon_plus_1s]
    BankingSystem.empty.

(** A ledger with the single account ["ACC20240315120000"], balance 100,
    opened with the password ["s3cret"]. *)
Definition ledger_with_password : State :=
  run_calls [CreateAccount "Ann" "savings" 100 (Some "s3cret") noon noon]
    BankingSystem.empty.

(** A ledger whose two accounts both have a password. *)
Definition ledger_all_protected : State :=
  run_calls [CreateAccount "Ann" "savings" 1000 (Some "pw-a") noon noon;
             CreateAccount "Bob" "current" 0 (Some "pw-b") noon_plus_1s noon_plus_1s]
    BankingSystem.empty.

(** Open an account with 1000 at [t_a], deposit 500, withdraw 200, open a
    second account with 0 at [t_b], transfer 300 from the first to the
    second. *)
Definition end_to_end (t_a t_b : datetime) : list call :=
  [CreateAccount "Ann" "savings" 1000 None t_a t_a;
   Deposit (BankAccount._generate_account_number t_a) 500 t_a;
   Withdraw (BankAccount._generate_account_number t_a) 200 t_a;
   CreateAccount "Bob" "savings" 0 None t_b t_b;
   Transfer (BankAccount._generate_account_number t_a)
            (BankAccount._generate_account_number t_b) 300 t_b t_b].

(** ** Example accounts *)

(** An account with two deposits of [2^62] each. *)
Definition two_large_deposits : BankAccount :=
  mk_account "Ann" "ACC20240315120000" "savings" (2 ^ 63)
    [mk_transaction noon "deposit" (2 ^ 62) (2 ^ 62) None;
     mk_transaction noon_plus_1s "deposit" (2 ^ 62) (2 ^ 63) None] None.

(** An account whose three deposits of 1, 1 and 2 have the mean [4/3]. *)
Definition three_small_deposits : BankAccount :=
  mk_account "Ann" "ACC20240315120000" "savings" 4
    [mk_transaction noon "deposit" 1 1 None;
     mk_transaction noon "deposit" 1 2 None;
     mk_transaction noon_plus_1s "deposit" 2 4 None] None.

(** The first account at the end of [end_to_end noon noon_plus_1s]. *)
Definition first_account_at_the_end : BankAccount :=
  debited noon_plus_1s 300 "ACC20240315120001"
    (withdrawn noon 200
       (deposited noon 500 (opened "Ann" "savings" 1000 None noon noon))).

(** ** Properties of accounts, ledgers and clock readings *)

(** A reading [datetime.now()] can return. *)
Definition valid_datetime (d : datetime) : Prop :=
  1 <= Z.of_nat (year d) <= 9999 ∧
  (1 ≤ month d ≤ 12 ∧ 1 ≤ day d ≤ 31 ∧
   hour d < 24 ∧ minute d < 60 ∧ second d < 60)%nat ∧
  Z.of_nat (microsecond d) < 1000000.

(** Two readings that agree down to the second. *)
Definition same_second (d1 d2 : datetime) : Prop :=
  year d1 = year d2 ∧ month d1 = month d2 ∧ day d1 = day d2 ∧
  hour d1 = hour d2 ∧ minute d1 = minute d2 ∧ second d1 = second d2.

(** The attributes of an account that no method assigns after
    [__init__]. *)
Definition same_identity (a a' : BankAccount) : Prop :=
  account_holder_name a' = account_holder_name a ∧
  account_number a' = account_number a ∧
  account_type a' = account_type a ∧
  password a' = password a.

(** Every recorded amount is positive. *)
Definition amounts_positive (a : BankAccount) : Prop :=
  Forall (λ t, 0 < amount t) (transaction_history a).

(** The last record, if there is one, shows the current balance. *)
Definition last_record_current (a : BankAccount) : Prop :=
  ∀ t, last (transaction_history a) = Some t → balance_after t = balance a.

(** [a'] is a later state of the account [a]: the same identity, and a
    history that continues the history of [a]. *)
Definition later_state (a a' : BankAccount) : Prop :=
  same_identity a a' ∧ transaction_history a `prefix_of` transaction_history a'.

(** The sum of the balances of all account objects. *)
Definition total_balance (s : State) : Z :=
  map_fold (λ _ a acc, balance a + acc) 0 (heap s).

(** The file holds the ledger: either it is the pickle of the dictionary,
    or there is no file and no account. *)
Definition in_sync (s : State) : Prop :=
  file s = Some (BankingSystem.pickled s) ∨ (file s = None ∧ accounts s = ∅).

(** What [_load_data] finds after the run that ended in state [s]. *)
Definition file_found (s : State) : data_file :=
  match file s with
  | None => NoFile
  | Some d => Pickle d
  end.

(** The state of a new process started on the file of [s]. *)
Definition restart (s : State) : State :=
  let hd := BankingSystem.__init__ (file_found s) in
  mk_state hd.1 hd.2 (file s).

(** ** Effects of a call *)

(** What a successful operation does to an account. *)
Inductive account_step (a : BankAccount) : BankAccount → Prop :=
| step_deposit now amt :
    0 < amt → account_step a (deposited now amt a)
| step_withdraw now amt :
    0 < amt <= balance a → account_step a (withdrawn now amt a)
| step_debit now amt counterparty :
    0 < amt <= balance a → account_step a (debited now amt counterparty a)
| step_credit now amt counterparty :
    0 < amt → account_step a (credited now amt counterparty a).

(** What a call does to the state, one assignment at a time: an account
    object is updated, a new account is entered in the dictionary, or the
    dictionary is written to the file. *)
Inductive effect (s : State) : State → Prop :=
| effect_update l a a' :
    heap s !! l = Some a → account_step a a' →
    effect s (with_heap (<[l := a']> (heap s)) s)
| effect_open name type initial pw now_number now_record :
    name ≠ "" → type ≠ "" → 0 <= initial →
    effect s (mk_state
      (<[fresh (dom (heap s)) :=
           opened name type initial pw now_number now_record]> (heap s))
      (<[BankAccount._generate_account_number now_number :=
           fresh (dom (heap s))]> (accounts s))
      (file s))
| effect_save :
    effect s (saved s).

(** The states a call can end in: the one it started in, when it is
    rejected, or the saved state after the assignments of the accepted
    call. *)
Inductive outcome (s : State) : call → State → Prop :=
| call_rejected c :
    outcome s c s
| call_opened name type initial pw now_number now_record :
    name ≠ "" → type ≠ "" → 0 <= initial →
    outcome s (CreateAccount name type initial pw now_number now_record)
      (saved (mk_state
        (<[fresh (dom (heap s)) :=
             opened name type initial pw now_number now_record]> (heap s))
        (<[BankAccount._generate_account_number now_number :=
             fresh (dom (heap s))]> (accounts s))
        (file s)))
| call_deposited n l a amt now :
    accounts s !! n = Some l → heap s !! l = Some a → 0 < amt →
    outcome s (Deposit n amt now)
      (saved (with_heap (<[l := deposited now amt a]> (heap s)) s))
| call_withdrawn n l a amt now :
    accounts s !! n = Some l → heap s !! l = Some a → 0 < amt <= balance a →
    outcome s (Withdraw n amt now)
      (saved (with_heap (<[l := withdrawn now amt a]> (heap s)) s))
| call_transferred from to lf lt a b amt now_out now_in :
    accounts s !! from = Some lf → accounts s !! to = Some lt → lf ≠ lt →
    heap s !! lf = Some a → heap s !! lt = Some b → 0 < amt <= balance a →
    outcome s (Transfer from to amt now_out now_in)
      (saved (with_heap
        (<[lt := credited now_in amt (account_number a) b]>
           (<[lf := debited now_out amt (account_number b) a]> (heap s))) s))
| call_self_transferred from to l a amt now_out now_in :
    accounts s !! from = Some l → accounts s !! to = Some l →
    heap s !! l = Some a → 0 < amt <= balance a →
    outcome s (Transfer from to amt now_out now_in)
      (saved (with_heap
        (<[l := credited now_in amt (account_number a)
                  (debited now_out amt (account_number a) a)]> (heap s)) s)).

(** The account numbers a call names; for [create_account], the number it
    gives to the new account. *)
Definition names (c : call) : list string :=
  match c with
  | CreateAccount _ _ _ _ now_number _ =>
      [BankAccount._generate_account_number now_number]
  | Deposit n _ _ => [n]
  | Withdraw n _ _ => [n]
  | Transfer from to _ _ _ => [from; to]
  end.

(** * Proofs *)

(** ** The account operations, step by step *)

Ltac unfold_monad :=
  unfold mbind, mret, M_bind, M_ret, raise, get_obj, set_obj, new_obj,
    BankingSystem.get_accounts, BankingSystem.set_account,
    BankingSystem._save_data in *.

(** One step of reading or writing the store. *)
Ltac heap_step :=
  simpl;
  first [ rewrite lookup_insert_eq
        | rewrite insert_insert_eq
        | rewrite lookup_insert_ne by done
        | match goal with H : heap _ !! _ = Some _ |- _ => rewrite H end ].

Section AccountSteps.
Context (s : State) (self : loc) (a : BankAccount).
Hypothesis Hself : heap s !! self = Some a.

Lemma record_transaction_run ty amt other now :
  BankAccount._record_transaction self ty amt other now s =
  (Return tt,
   with_heap (<[self := append_transaction
        (mk_transaction now ty amt (balance a)
           (if truthy other then other else None)) a]> (heap s)) s).
Proof.
  unfold BankAccount._record_transaction. unfold_monad.
  by rewrite Hself.
Qed.

Lemma deposit_run amt now :
  0 < amt →
  BankAccount.deposit self amt now s =
  (Return true, with_heap (<[self := deposited now amt a]> (heap s)) s).
Proof.
  intros Hpos. unfold BankAccount.deposit, BankAccount._record_transaction.
  rewrite bool_decide_eq_false_2 by lia.
  unfold_monad. rewrite Hself. simpl.
  rewrite lookup_insert_eq. simpl. by rewrite insert_insert_eq.
Qed.

Lemma deposit_nonpositive amt now :
  amt <= 0 →
  BankAccount.deposit self amt now s =
  (Raise (ValueError "Deposit amount must be positive"), s).
Proof.
  intros Hle. unfold BankAccount.deposit.
  by rewrite bool_decide_eq_true_2 by lia.
Qed.

Lemma withdraw_run amt now :
  0 < amt <= balance a →
  BankAccount.withdraw self amt now s =
  (Return true, with_heap (<[self := withdrawn now amt a]> (heap s)) s).
Proof.
  intros Hpos. unfold BankAccount.withdraw, BankAccount._record_transaction.
  rewrite bool_decide_eq_false_2 by lia.
  unfold_monad. rewrite Hself. simpl.
  rewrite bool_decide_eq_false_2 by lia. simpl.
  rewrite lookup_insert_eq. simpl. by rewrite insert_insert_eq.
Qed.

Lemma withdraw_nonpositive amt now :
  amt <= 0 →
  BankAccount.withdraw self amt now s =
  (Raise (ValueError "Withdrawal amount must be positive"), s).
Proof.
  intros Hle. unfold BankAccount.withdraw.
  by rewrite bool_decide_eq_true_2 by lia.
Qed.

Lemma withdraw_insufficient amt now :
  0 < amt → amt > balance a →
  BankAccount.withdraw self amt now s =
  (Raise (ValueError "Insufficient funds"), s).
Proof.
  intros Hpos Hgt. unfold BankAccount.withdraw.
  rewrite bool_decide_eq_false_2 by lia.
  unfold_monad. rewrite Hself.
  by rewrite bool_decide_eq_true_2 by lia.
Qed.

Lemma transfer_nonpositive amt target now_out now_in :
  amt <= 0 →
  BankAccount.transfer self amt target now_out now_in s =
  (Raise (ValueError "Transfer amount must be positive"), s).
Proof.
  intros Hle. unfold BankAccount.transfer.
  by rewrite bool_decide_eq_true_2 by lia.
Qed.

Lemma transfer_insufficient amt target now_out now_in :
  0 < amt → amt > balance a →
  BankAccount.transfer self amt target now_out now_in s =
  (Raise (ValueError "Insufficient funds for transfer"), s).
Proof.
  intros Hpos Hgt. unfold BankAccount.transfer.
  rewrite bool_decide_eq_false_2 by lia.
  unfold_monad. rewrite Hself.
  by rewrite bool_decide_eq_true_2 by lia.
Qed.

(** Two different objects: one record each. *)
Lemma transfer_run amt target b now_out now_in :
  self ≠ target → heap s !! target = Some b →
  0 < amt <= balance a →
  BankAccount.transfer self amt target now_out now_in s =
  (Return true,
   with_heap (<[target := credited now_in amt (account_number a) b]>
               (<[self := debited now_out amt (account_number b) a]> (heap s))) s).
Proof.
  intros Hne Htarget Hpos.
  unfold BankAccount.transfer, BankAccount._record_transaction.
  rewrite bool_decide_eq_false_2 by lia.
  unfold_monad. rewrite Hself. simpl.
  rewrite bool_decide_eq_false_2 by lia. simpl.
  by repeat heap_step.
Qed.

(** One object in both roles: both records land in its history and the
    balance is back where it was. *)
Lemma transfer_self_run amt now_out now_in :
  0 < amt <= balance a →
  BankAccount.transfer self amt self now_out now_in s =
  (Return true,
   with_heap (<[self := credited now_in amt (account_number a)
                          (debited now_out amt (account_number a) a)]> (heap s)) s).
Proof.
  intros Hpos.
  unfold BankAccount.transfer, BankAccount._record_transaction.
  rewrite bool_decide_eq_false_2 by lia.
  unfold_monad. rewrite Hself. simpl.
  rewrite bool_decide_eq_false_2 by lia. simpl.
  by repeat heap_step.
Qed.

End AccountSteps.

(** ** The ledger operations, step by step *)

Lemma init_run s name type initial pw now_number now_record :
  BankAccount.__init__ name type initial pw now_number now_record s =
  (Return (fresh (dom (heap s))),
   with_heap (<[fresh (dom (heap s)) :=
                 opened name type initial pw now_number now_record]> (heap s)) s).
Proof.
  unfold BankAccount.__init__, BankAccount._record_transaction, opened.
  unfold_monad. simpl. case_bool_decide; simpl; [|done].
  rewrite lookup_insert_eq. simpl. by rewrite insert_insert_eq.
Qed.

Lemma opened_number name type initial pw now_number now_record :
  account_number (opened name type initial pw now_number now_record) =
  BankAccount._generate_account_number now_number.
Proof. unfold opened. by case_bool_decide. Qed.

Lemma create_account_run s name type initial pw now_number now_record :
  name ≠ "" → type ≠ "" → 0 <= initial →
  BankingSystem.create_account name type initial pw now_number now_record s =
  (Return (BankAccount._generate_account_number now_number),
   saved (mk_state
     (<[fresh (dom (heap s)) :=
          opened name type initial pw now_number now_record]> (heap s))
     (<[BankAccount._generate_account_number now_number :=
          fresh (dom (heap s))]> (accounts s))
     (file s))).
Proof.
  intros Hname Htype Hinit. unfold BankingSystem.create_account.
  rewrite (bool_decide_eq_false_2 (name = "")), (bool_decide_eq_false_2 (type = "")) by done.
  rewrite bool_decide_eq_false_2 by lia. simpl.
  unfold mbind at 1, M_bind at 1. rewrite init_run.
  unfold_monad. simpl. rewrite lookup_insert_eq. simpl.
  by rewrite opened_number.
Qed.

Lemma create_account_rejected s name type initial pw now_number now_record :
  name = "" ∨ type = "" ∨ initial < 0 →
  rejects (BankingSystem.create_account name type initial pw now_number now_record)
          s InvalidInput.
Proof.
  intros H. unfold rejects, BankingSystem.create_account.
  destruct (bool_decide (name = "") || bool_decide (type = "")) eqn:E.
  - eexists. split; [reflexivity|done].
  - apply orb_false_iff in E as [E1 E2].
    apply bool_decide_eq_false in E1, E2.
    rewrite bool_decide_eq_true_2 by (destruct H as [?|[?|?]]; [done|done|lia]).
    eexists. split; [reflexivity|done].
Qed.

Section LedgerSteps.
Context (s : State) (number : string) (l : loc) (a : BankAccount).
Hypothesis Hnumber : accounts s !! number = Some l.
Hypothesis Hl : heap s !! l = Some a.

Lemma get_account_run pw :
  BankingSystem.get_account number pw s =
  if truthy (password a) && bool_decide (password a ≠ pw)
  then (Raise (ValueError "Invalid password"), s)
  else (Return l, s).
Proof.
  unfold BankingSystem.get_account. unfold_monad.
  rewrite Hnumber, Hl. by destruct (_ && _).
Qed.

Lemma ledger_deposit_run amt now :
  BankingSystem.deposit number amt now s =
  if truthy (password a)
  then (Raise (ValueError "Invalid password"), s)
  else match BankAccount.deposit l amt now s with
       | (Return r, s') => (Return r, saved s')
       | (Raise e, s') => (Raise e, s')
       end.
Proof.
  unfold BankingSystem.deposit.
  unfold mbind at 1, M_bind at 1. rewrite get_account_run.
  destruct (truthy (password a)) eqn:E; simpl.
  - rewrite bool_decide_eq_true_2; [done|].
    intros Heq. rewrite Heq in E. done.
  - unfold_monad. by destruct (BankAccount.deposit l amt now s) as [[r|e] s'].
Qed.

Lemma ledger_withdraw_run amt now :
  BankingSystem.withdraw number amt now s =
  if truthy (password a)
  then (Raise (ValueError "Invalid password"), s)
  else match BankAccount.withdraw l amt now s with
       | (Return r, s') => (Return r, saved s')
       | (Raise e, s') => (Raise e, s')
       end.
Proof.
  unfold BankingSystem.withdraw.
  unfold mbind at 1, M_bind at 1. rewrite get_account_run.
  destruct (truthy (password a)) eqn:E; simpl.
  - rewrite bool_decide_eq_true_2; [done|].
    intros Heq. rewrite Heq in E. done.
  - unfold_monad. by destruct (BankAccount.withdraw l amt now s) as [[r|e] s'].
Qed.

Lemma ledger_transfer_run to lt amt now_out now_in :
  accounts s !! to = Some lt →
  BankingSystem.transfer number to amt now_out now_in s =
  match BankAccount.transfer l amt lt now_out now_in s with
  | (Return r, s') => (Return r, saved s')
  | (Raise e, s') => (Raise e, s')
  end.
Proof.
  intros Hto. unfold BankingSystem.transfer. unfold_monad.
  rewrite Hnumber, Hto.
  by destruct (BankAccount.transfer l amt lt now_out now_in s) as [[r|e] s'].
Qed.

End LedgerSteps.

Lemma get_account_missing s number pw :
  accounts s !! number = None →
  BankingSystem.get_account number pw s =
  (Raise (ValueError "Account not found"), s).
Proof.
  intros H. unfold BankingSystem.get_account. unfold_monad. by rewrite H.
Qed.

Lemma ledger_transfer_no_source s from to amt now_out now_in :
  accounts s !! from = None →
  BankingSystem.transfer from to amt now_out now_in s =
  (Raise (ValueError "Source account not found"), s).
Proof.
  intros H. unfold BankingSystem.transfer. unfold_monad. by rewrite H.
Qed.

Lemma ledger_transfer_no_target s from to amt now_out now_in l :
  accounts s !! from = Some l → accounts s !! to = None →
  BankingSystem.transfer from to amt now_out now_in s =
  (Raise (ValueError "Target account not found"), s).
Proof.
  intros H1 H2. unfold BankingSystem.transfer. unfold_monad. by rewrite H1, H2.
Qed.

Lemma ledger_deposit_missing s number amt now :
  accounts s !! number = None →
  BankingSystem.deposit number amt now s = (Raise (ValueError "Account not found"), s).
Proof.
  intros H. unfold BankingSystem.deposit.
  unfold mbind at 1, M_bind at 1. by rewrite get_account_missing.
Qed.

Lemma ledger_withdraw_missing s number amt now :
  accounts s !! number = None →
  BankingSystem.withdraw number amt now s = (Raise (ValueError "Account not found"), s).
Proof.
  intros H. unfold BankingSystem.withdraw.
  unfold mbind at 1, M_bind at 1. by rewrite get_account_missing.
Qed.

Lemma rejects_intro {A} (m : M A) (s : State) (e : exn) (k : error_kind) :
  m s = (Raise e, s) → kind_of e = Some k → rejects m s k.
Proof. intros H1 H2. exists e. by split. Qed.

(** ** The invariants are kept *)

Lemma sum_Z_snoc l x : sum_Z (l ++ [x]) = sum_Z l + x.
Proof. induction l as [|y l IH]; simpl; lia. Qed.

Lemma balanced_append a t b :
  balance a + signed t = b →
  balanced a → balanced (append_transaction t (set_balance b a)).
Proof.
  unfold balanced. simpl. intros <- ->.
  rewrite fmap_app. symmetry. apply sum_Z_snoc.
Qed.

Lemma balanced_deposited now amt a : balanced a → balanced (deposited now amt a).
Proof. by apply balanced_append. Qed.

Lemma balanced_withdrawn now amt a : balanced a → balanced (withdrawn now amt a).
Proof. apply balanced_append. unfold signed. simpl. lia. Qed.

Lemma balanced_debited now amt c a : balanced a → balanced (debited now amt c a).
Proof. apply balanced_append. unfold signed. simpl. lia. Qed.

Lemma balanced_credited now amt c a : balanced a → balanced (credited now amt c a).
Proof. by apply balanced_append. Qed.

Lemma balanced_opened name type initial pw d1 d2 :
  0 <= initial → balanced (opened name type initial pw d1 d2).
Proof.
  intros H. unfold opened, balanced. case_bool_decide; simpl.
  - unfold signed. simpl. lia.
  - lia.
Qed.

Lemma well_formed_injective s n1 n2 l :
  well_formed s → accounts s !! n1 = Some l → accounts s !! n2 = Some l → n1 = n2.
Proof.
  intros Hwf H1 H2.
  destruct (Hwf _ _ H1) as (a1 & Ha1 & <- & _).
  destruct (Hwf _ _ H2) as (a2 & Ha2 & <- & _).
  congruence.
Qed.

Lemma ledger_inv_empty : ledger_inv BankingSystem.empty.
Proof. split; intros ??; simpl; by rewrite lookup_empty. Qed.

Lemma ledger_inv_saved s : ledger_inv s → ledger_inv (saved s).
Proof. done. Qed.

Lemma ledger_inv_update s l a a' :
  ledger_inv s → heap s !! l = Some a →
  account_number a' = account_number a → balanced a' →
  ledger_inv (with_heap (<[l := a']> (heap s)) s).
Proof.
  intros [Hwf Hbal] Hl Hnum Ha'. split.
  - intros n l' Hn. simpl in *.
    destruct (Hwf _ _ Hn) as (b & Hb & Hbn & Hne0).
    destruct (decide (l = l')) as [<-|Hne].
    + exists a'. rewrite lookup_insert_eq. split; [done|]. split; congruence.
    + exists b. by rewrite lookup_insert_ne.
  - intros l' b. simpl. rewrite lookup_insert.
    case_decide; [congruence | apply Hbal].
Qed.

Lemma ledger_inv_create s name type initial pw d1 d2 :
  ledger_inv s →
  ledger_inv (BankingSystem.create_account name type initial pw d1 d2 s).2.
Proof.
  intros Hinv.
  destruct (decide (name = "" ∨ type = "" ∨ initial < 0)) as [Hbad|Hgood].
  - destruct (create_account_rejected s name type initial pw d1 d2 Hbad) as (e & -> & _).
    done.
  - rewrite create_account_run by (try lia; naive_solver).
    destruct Hinv as [Hwf Hbal]. apply ledger_inv_saved.
    split.
    + intros n l. cbn [heap accounts]. rewrite lookup_insert. case_decide as Hn.
      * intros [= <-]. eexists. rewrite lookup_insert_eq. split; [done|].
        by rewrite opened_number, <- Hn.
      * intros Hl. destruct (Hwf _ _ Hl) as (a & Ha & Han).
        exists a. split; [|done]. rewrite lookup_insert_ne; [done|].
        intros Heq. apply (is_fresh (dom (heap s))). rewrite Heq.
        apply elem_of_dom. eauto.
    + intros l a. cbn [heap accounts]. rewrite lookup_insert. case_decide.
      * intros [= <-]. apply balanced_opened. lia.
      * apply Hbal.
Qed.

Lemma ledger_inv_deposit s number amt now :
  ledger_inv s → ledger_inv (BankingSystem.deposit number amt now s).2.
Proof.
  intros Hinv. destruct (accounts s !! number) as [l|] eqn:Hn.
  - destruct (proj1 Hinv _ _ Hn) as (a & Ha & _).
    rewrite (ledger_deposit_run s number l a Hn Ha).
    destruct (truthy (password a)); [done|].
    destruct (decide (0 < amt)).
    + rewrite (deposit_run s l a Ha) by done.
      apply ledger_inv_saved, (ledger_inv_update s l a); try done.
      apply balanced_deposited, (proj2 Hinv _ _ Ha).
    + by rewrite (deposit_nonpositive s l) by lia.
  - by rewrite ledger_deposit_missing.
Qed.

Lemma ledger_inv_withdraw s number amt now :
  ledger_inv s → ledger_inv (BankingSystem.withdraw number amt now s).2.
Proof.
  intros Hinv. destruct (accounts s !! number) as [l|] eqn:Hn.
  - destruct (proj1 Hinv _ _ Hn) as (a & Ha & _).
    rewrite (ledger_withdraw_run s number l a Hn Ha).
    destruct (truthy (password a)); [done|].
    destruct (decide (0 < amt)); [destruct (decide (amt <= balance a))|].
    + rewrite (withdraw_run s l a Ha) by done.
      apply ledger_inv_saved, (ledger_inv_update s l a); try done.
      apply balanced_withdrawn, (proj2 Hinv _ _ Ha).
    + by rewrite (withdraw_insufficient s l a Ha) by lia.
    + by rewrite (withdraw_nonpositive s l) by lia.
  - by rewrite ledger_withdraw_missing.
Qed.

Lemma ledger_inv_transfer s from to amt now_out now_in :
  ledger_inv s → ledger_inv (BankingSystem.transfer from to amt now_out now_in s).2.
Proof.
  intros Hinv. destruct (accounts s !! from) as [lf|] eqn:Hf.
  2: by rewrite ledger_transfer_no_source.
  destruct (accounts s !! to) as [lt|] eqn:Ht.
  2: by rewrite (ledger_transfer_no_target _ _ _ _ _ _ lf).
  destruct (proj1 Hinv _ _ Hf) as (a & Ha & _).
  destruct (proj1 Hinv _ _ Ht) as (b & Hb & _).
  rewrite (ledger_transfer_run s from lf Hf to lt) by done.
  destruct (decide (0 < amt)); [destruct (decide (amt <= balance a))|].
  - destruct (decide (lf = lt)) as [<-|Hne].
    + rewrite (transfer_self_run s lf a Ha) by done.
      apply ledger_inv_saved, (ledger_inv_update s lf a); try done.
      apply balanced_credited, balanced_debited, (proj2 Hinv _ _ Ha).
    + rewrite (transfer_run s lf a Ha amt lt b) by done.
      apply ledger_inv_saved.
      pose proof (ledger_inv_update s lf a
        (debited now_out amt (account_number b) a) Hinv Ha eq_refl
        (balanced_debited _ _ _ _ (proj2 Hinv _ _ Ha))) as Hinv1.
      assert (heap (with_heap
        (<[lf := debited now_out amt (account_number b) a]> (heap s)) s) !! lt
        = Some b) as Hb1.
      { unfold with_heap. cbn [heap]. by rewrite lookup_insert_ne. }
      exact (ledger_inv_update _ lt b
        (credited now_in amt (account_number a) b) Hinv1 Hb1 eq_refl
        (balanced_credited _ _ _ _ (proj2 Hinv _ _ Hb))).
  - by rewrite (transfer_insufficient s lf a Ha) by lia.
  - by rewrite (transfer_nonpositive s lf) by lia.
Qed.

Lemma ledger_inv_run_call c s : ledger_inv s → ledger_inv (run_call c s).
Proof.
  destruct c; simpl.
  - apply ledger_inv_create.
  - apply ledger_inv_deposit.
  - apply ledger_inv_withdraw.
  - apply ledger_inv_transfer.
Qed.

Lemma ledger_inv_run_calls cs s : ledger_inv s → ledger_inv (run_calls cs s).
Proof.
  revert s. induction cs as [|c cs IH]; intros s Hinv; [done|].
  simpl. apply IH, ledger_inv_run_call, Hinv.
Qed.

(** ** C1: a transfer leaves two records or none *)

Lemma truthy_nonempty n : n ≠ "" → truthy (Some n) = true.
Proof. by destruct n. Qed.

(** C1, amended.  In a well-formed ledger, a transfer between two
    different account numbers either succeeds with exactly one
    [transfer_out] record appended to the source and one [transfer_in]
    record appended to the target, of the same amount, each naming the
    other account, and with the balances moved by the amount; or it is
    rejected and the state is unchanged. *)
Theorem transfer_two_records_or_none (s : State) (from to : string) (amt : Z)
    (now_out now_in : datetime) :
  well_formed s → from ≠ to →
  two_records_or_none s from to amt now_out now_in.
Proof.
  intros Hwf Hdiff. unfold two_records_or_none.
  destruct (accounts s !! from) as [lf|] eqn:Hf.
  2: { rewrite ledger_transfer_no_source by done. right. eauto. }
  destruct (accounts s !! to) as [lt|] eqn:Ht.
  2: { rewrite (ledger_transfer_no_target _ _ _ _ _ _ lf) by done. right. eauto. }
  destruct (Hwf _ _ Hf) as (a & Ha & Hna & Hfne).
  destruct (Hwf _ _ Ht) as (b & Hb & Hnb & Htne).
  assert (lf ≠ lt) as Hne.
  { intros ->. apply Hdiff. by apply (well_formed_injective s from to lt). }
  rewrite (ledger_transfer_run s from lf Hf to lt) by done.
  destruct (decide (0 < amt)); [destruct (decide (amt <= balance a))|].
  - rewrite (transfer_run s lf a Ha amt lt b) by done.
    left. split; [done|].
    exists a, b, (debited now_out amt (account_number b) a),
      (credited now_in amt (account_number a) b).
    unfold account_at. cbn [saved with_heap heap accounts].
    rewrite Hf, Ht. cbn [mbind option_bind].
    rewrite Ha, Hb, lookup_insert_eq, lookup_insert_ne, lookup_insert_eq by done.
    unfold debited, credited, transfer_out_record, transfer_in_record.
    rewrite Hna, Hnb, !truthy_nonempty by done.
    done.
  - rewrite (transfer_insufficient s lf a Ha) by lia. right. eauto.
  - rewrite (transfer_nonpositive s lf) by lia. right. eauto.
Qed.

(** A transfer of 30 from the one account of [ledger_of_one] to itself:
    the call returns [True], the history goes from one record to three, a
    [transfer_out] followed by a [transfer_in], and the balance is 100 as
    before. *)
Lemma self_transfer_outcome :
  let '(r, s') := BankingSystem.transfer "ACC20240315120000" "ACC20240315120000"
                    30 noon noon ledger_of_one in
  r = Return true ∧
  balance <$> account_at ledger_of_one "ACC20240315120000" = Some 100 ∧
  balance <$> account_at s' "ACC20240315120000" = Some 100 ∧
  (fmap type ∘ transaction_history) <$> account_at ledger_of_one "ACC20240315120000" =
    Some ["deposit"] ∧
  (fmap type ∘ transaction_history) <$> account_at s' "ACC20240315120000" =
    Some ["deposit"; "transfer_out"; "transfer_in"].
Proof. by vm_compute. Qed.

(** C1, as stated, fails when source and target are the same account: the
    call succeeds, the one history grows by two records and the balance is
    what it was. *)
Lemma self_transfer_two_records_one_account :
  ¬ two_records_or_none ledger_of_one "ACC20240315120000" "ACC20240315120000"
      30 noon noon.
Proof.
  unfold two_records_or_none.
  destruct (BankingSystem.transfer _ _ _ _ _ _) as [r s'] eqn:E.
  vm_compute in E. injection E as <- <-.
  intros [[_ (a & b & a' & b' & Ha & _ & Ha' & _ & Hh & _)] | (e & He & _)];
    [|done].
  vm_compute in Ha, Ha'. injection Ha as <-. injection Ha' as <-.
  vm_compute in Hh. discriminate Hh.
Qed.

Lemma transfer_two_records_or_none_witness :
  two_records_or_none ledger_of_two "ACC20240315120000" "ACC20240315120001"
    300 noon_plus_1s noon_plus_1s.
Proof.
  apply transfer_two_records_or_none.
  - exact (proj1 (ledger_inv_run_calls _ _ ledger_inv_empty)).
  - discriminate.
Defined.

(** ** C2: the balance and the log *)

Lemma run_account_calls_balance cs : ∀ s self a,
  heap s !! self = Some a → valid_amounts (balance a) cs →
  ∃ s' a', run_account_calls self cs s = (Return tt, s') ∧
           heap s' !! self = Some a' ∧
           balance a' = balance a + sum_deposits cs - sum_withdrawals cs.
Proof.
  induction cs as [|c cs IH]; intros s self a Hself Hvalid.
  - exists s, a. split; [done|]. split; [done|]. simpl. lia.
  - destruct c as [amt now|amt now]; destruct Hvalid as [Hamt Hvalid].
    + destruct (IH (with_heap (<[self := deposited now amt a]> (heap s)) s)
                   self (deposited now amt a)) as (s' & a' & Hrun & Ha' & Hbal).
      { unfold with_heap. cbn [heap]. by rewrite lookup_insert_eq. }
      { done. }
      exists s', a'. split; [|split; [done|]].
      * cbn [run_account_calls run_account_call].
        unfold mbind at 1, M_bind at 1.
        by rewrite (deposit_run s self a Hself).
      * rewrite Hbal. simpl. lia.
    + destruct (IH (with_heap (<[self := withdrawn now amt a]> (heap s)) s)
                   self (withdrawn now amt a)) as (s' & a' & Hrun & Ha' & Hbal).
      { unfold with_heap. cbn [heap]. by rewrite lookup_insert_eq. }
      { done. }
      exists s', a'. split; [|split; [done|]].
      * cbn [run_account_calls run_account_call].
        unfold mbind at 1, M_bind at 1.
        by rewrite (withdraw_run s self a Hself).
      * rewrite Hbal. simpl. lia.
Qed.

(** C2.  In a ledger whose accounts all have a balance equal to the sum of
    the signed amounts of their log (as the empty ledger has), this stays
    so for every account after every sequence of calls, accepted or
    rejected; a new account starts with its initial deposit as the only
    record, if the deposit is positive.  And for every sequence of
    [deposit] and [withdraw] calls with valid amounts on an account, every
    call succeeds and the final balance is the initial balance plus the sum
    of the deposited amounts minus the sum of the withdrawn amounts. *)
Theorem balance_is_sum_of_log (s : State) (self : loc) (a : BankAccount) :
  (ledger_inv s →
     ∀ cs l b, heap (run_calls cs s) !! l = Some b → balanced b) ∧
  (heap s !! self = Some a →
     ∀ cs, valid_amounts (balance a) cs →
       ∃ s' a', run_account_calls self cs s = (Return tt, s') ∧
                heap s' !! self = Some a' ∧
                balance a' = balance a + sum_deposits cs - sum_withdrawals cs).
Proof.
  split.
  - intros Hinv cs l b. apply (proj2 (ledger_inv_run_calls cs s Hinv)).
  - intros Hself cs. by apply run_account_calls_balance.
Qed.

Lemma balance_is_sum_of_log_witness :
  (∀ cs l b, heap (run_calls cs BankingSystem.empty) !! l = Some b → balanced b) ∧
  (∃ s' a', run_account_calls 1%positive [ADeposit 500 noon; AWithdraw 200 noon_plus_1s]
              ledger_of_one = (Return tt, s') ∧
            heap s' !! 1%positive = Some a' ∧
            balance a' = 100 + 500 - 200).
Proof.
  split.
  - apply (balance_is_sum_of_log BankingSystem.empty 1%positive
             (opened "Ann" "savings" 100 None noon noon)).
    apply ledger_inv_empty.
  - apply (balance_is_sum_of_log ledger_of_one 1%positive
             (opened "Ann" "savings" 100 None noon noon)).
    + vm_compute. reflexivity.
    + vm_compute. split; [reflexivity | split; [split; [reflexivity | discriminate] | exact I]].
Defined.

(** ** C3: deposits and withdrawals through the ledger *)

Lemma ledger_deposit_protected s number l a amt now :
  accounts s !! number = Some l → heap s !! l = Some a → has_password a →
  rejects (BankingSystem.deposit number amt now) s Unauthorized.
Proof.
  intros Hn Hl Hpw. apply (rejects_intro _ _ (ValueError "Invalid password")); [|done].
  by rewrite (ledger_deposit_run s number l a Hn Hl), Hpw.
Qed.

Lemma ledger_withdraw_protected s number l a amt now :
  accounts s !! number = Some l → heap s !! l = Some a → has_password a →
  rejects (BankingSystem.withdraw number amt now) s Unauthorized.
Proof.
  intros Hn Hl Hpw. apply (rejects_intro _ _ (ValueError "Invalid password")); [|done].
  by rewrite (ledger_withdraw_run s number l a Hn Hl), Hpw.
Qed.

Lemma ledger_deposit_unprotected s number l a amt now :
  accounts s !! number = Some l → heap s !! l = Some a → ¬ has_password a →
  0 < amt →
  BankingSystem.deposit number amt now s =
  (Return true, saved (with_heap (<[l := deposited now amt a]> (heap s)) s)).
Proof.
  intros Hn Hl Hpw Hamt. rewrite (ledger_deposit_run s number l a Hn Hl).
  unfold has_password in Hpw. destruct (truthy (password a)); [done|].
  by rewrite (deposit_run s l a Hl).
Qed.

Lemma ledger_withdraw_unprotected s number l a amt now :
  accounts s !! number = Some l → heap s !! l = Some a → ¬ has_password a →
  0 < amt <= balance a →
  BankingSystem.withdraw number amt now s =
  (Return true, saved (with_heap (<[l := withdrawn now amt a]> (heap s)) s)).
Proof.
  intros Hn Hl Hpw Hamt. rewrite (ledger_withdraw_run s number l a Hn Hl).
  unfold has_password in Hpw. destruct (truthy (password a)); [done|].
  by rewrite (withdraw_run s l a Hl).
Qed.

(** C3, at an account with a password: [deposit] and [withdraw] of the
    ledger resolve the account with [get_account(account_number)], that
    is with no password, so both raise ["Invalid password"] and change
    nothing. *)
Theorem ledger_deposit_checks_password :
  BankingSystem.deposit "ACC20240315120000" 50 noon_plus_1s ledger_with_password =
    (Raise (ValueError "Invalid password"), ledger_with_password) ∧
  BankingSystem.withdraw "ACC20240315120000" 50 noon_plus_1s ledger_with_password =
    (Raise (ValueError "Invalid password"), ledger_with_password).
Proof. split; by vm_compute. Qed.

(** ** C4: rejected amounts *)

(** C4.  On every account, [deposit], [withdraw] and [transfer] called with
    an amount that is zero or negative raise the invalid-amount error, and
    [withdraw] and [transfer] called with a positive amount above the
    balance raise the insufficient-funds error; in each case the store is
    exactly as before: no balance moved, no record appended. *)
Theorem bad_amount_rejected (s : State) (self target : loc) (a : BankAccount)
    (amt : Z) (now now' : datetime) :
  heap s !! self = Some a →
  (amt <= 0 →
     rejects (BankAccount.deposit self amt now) s InvalidAmount ∧
     rejects (BankAccount.withdraw self amt now) s InvalidAmount ∧
     rejects (BankAccount.transfer self amt target now now') s InvalidAmount) ∧
  (0 < amt → amt > balance a →
     rejects (BankAccount.withdraw self amt now) s InsufficientFunds ∧
     rejects (BankAccount.transfer self amt target now now') s InsufficientFunds).
Proof.
  intros Hself. split.
  - intros Hle. split; [|split].
    + eapply rejects_intro; [by apply (deposit_nonpositive s self) | done].
    + eapply rejects_intro; [by apply (withdraw_nonpositive s self) | done].
    + eapply rejects_intro; [by apply (transfer_nonpositive s self) | done].
  - intros Hpos Hgt. split.
    + eapply rejects_intro; [by apply (withdraw_insufficient s self a) | done].
    + eapply rejects_intro; [by apply (transfer_insufficient s self a) | done].
Qed.

Lemma bad_amount_rejected_witness :
  rejects (BankAccount.deposit 1%positive (-5) noon) ledger_of_two InvalidAmount ∧
  rejects (BankAccount.transfer 1%positive 5000 2%positive noon noon)
    ledger_of_two InsufficientFunds.
Proof.
  assert (heap ledger_of_two !! 1%positive =
          Some (opened "Ann" "savings" 1000 None noon noon)) as Hann
    by (vm_compute; reflexivity).
  split.
  - apply (bad_amount_rejected ledger_of_two 1%positive 2%positive _ (-5) noon noon Hann).
    lia.
  - apply (bad_amount_rejected ledger_of_two 1%positive 2%positive _ 5000 noon noon Hann).
    + lia.
    + vm_compute. reflexivity.
Defined.

(** ** C5: account numbers *)

Lemma account_number_to_the_second y mo d h mi sec us us' :
  BankAccount._generate_account_number (mk_datetime y mo d h mi sec us) =
  BankAccount._generate_account_number (mk_datetime y mo d h mi sec us').
Proof. reflexivity. Qed.

(** C5, at two [create_account] calls within one second: both return the
    same number, and the second account takes the place of the first in
    the dictionary, which then holds one account. *)
Theorem same_second_same_account_number :
  let '(r1, s1) := BankingSystem.create_account "Ann" "savings" 1000 None
                     noon noon BankingSystem.empty in
  let '(r2, s2) := BankingSystem.create_account "Bob" "current" 0 None
                     noon_and_a_bit noon_and_a_bit s1 in
  r1 = Return "ACC20240315120000" ∧
  r2 = Return "ACC20240315120000" ∧
  account_holder_name <$> account_at s1 "ACC20240315120000" = Some "Ann" ∧
  account_holder_name <$> account_at s2 "ACC20240315120000" = Some "Bob" ∧
  size (accounts s2) = 1%nat.
Proof. by vm_compute. Qed.

(** ** C6: credentials in [get_account] *)

(** C6.  [get_account] fails with the not-found error on a number the
    ledger does not hold.  On a number it holds: if the account has a
    credential set, the call fails with the unauthorized error for every
    supplied credential that differs from it, among them [None], and
    returns the account for the matching one; if the account has no
    credential set, it returns the account whatever is supplied.  No
    outcome changes the state. *)
Theorem get_account_checks_credential (s : State) (number : string)
    (supplied : option string) :
  (accounts s !! number = None →
     rejects (BankingSystem.get_account number supplied) s NotFound) ∧
  (∀ l a, accounts s !! number = Some l → heap s !! l = Some a →
     (has_password a → password a ≠ supplied →
        rejects (BankingSystem.get_account number supplied) s Unauthorized) ∧
     (has_password a →
        rejects (BankingSystem.get_account number None) s Unauthorized) ∧
     (has_password a → password a = supplied →
        BankingSystem.get_account number supplied s = (Return l, s)) ∧
     (¬ has_password a →
        BankingSystem.get_account number supplied s = (Return l, s))).
Proof.
  split.
  - intros Hnone. eapply rejects_intro; [by apply get_account_missing | done].
  - intros l a Hn Hl. unfold has_password. split; [|split; [|split]].
    + intros Hpw Hne.
      apply (rejects_intro _ _ (ValueError "Invalid password")); [|done].
      rewrite (get_account_run s number l a Hn Hl), Hpw.
      by rewrite bool_decide_eq_true_2.
    + intros Hpw.
      apply (rejects_intro _ _ (ValueError "Invalid password")); [|done].
      rewrite (get_account_run s number l a Hn Hl), Hpw.
      rewrite bool_decide_eq_true_2; [done|].
      intros Heq. by rewrite Heq in Hpw.
    + intros Hpw Heq.
      rewrite (get_account_run s number l a Hn Hl), Hpw.
      by rewrite bool_decide_eq_false_2 by (intros ?; done).
    + intros Hpw. rewrite (get_account_run s number l a Hn Hl).
      by destruct (truthy (password a)).
Qed.

Lemma get_account_checks_credential_witness :
  rejects (BankingSystem.get_account "ACC19990101000000" None) ledger_of_two NotFound ∧
  rejects (BankingSystem.get_account "ACC20240315120001" (Some "guess"))
    ledger_of_two Unauthorized ∧
  BankingSystem.get_account "ACC20240315120001" (Some "s3cret") ledger_of_two =
    (Return 2%positive, ledger_of_two) ∧
  BankingSystem.get_account "ACC20240315120000" (Some "guess") ledger_of_two =
    (Return 1%positive, ledger_of_two).
Proof.
  assert (accounts ledger_of_two !! "ACC20240315120000" = Some 1%positive) as Hn1
    by (vm_compute; reflexivity).
  assert (accounts ledger_of_two !! "ACC20240315120001" = Some 2%positive) as Hn2
    by (vm_compute; reflexivity).
  assert (heap ledger_of_two !! 1%positive =
          Some (opened "Ann" "savings" 1000 None noon noon)) as Hann
    by (vm_compute; reflexivity).
  assert (heap ledger_of_two !! 2%positive =
          Some (opened "Bob" "current" 0 (Some "s3cret") noon_plus_1s noon_plus_1s)) as Hbob
    by (vm_compute; reflexivity).
  split; [|split; [|split]].
  - apply (get_account_checks_credential ledger_of_two "ACC19990101000000" None).
    vm_compute. reflexivity.
  - destruct (proj2 (get_account_checks_credential ledger_of_two
                "ACC20240315120001" (Some "guess")) 2%positive _ Hn2 Hbob)
      as (Hwrong & _).
    apply Hwrong; [reflexivity | discriminate].
  - destruct (proj2 (get_account_checks_credential ledger_of_two
                "ACC20240315120001" (Some "s3cret")) 2%positive _ Hn2 Hbob)
      as (_ & _ & Hright & _).
    apply Hright; reflexivity.
  - destruct (proj2 (get_account_checks_credential ledger_of_two
                "ACC20240315120000" (Some "guess")) 1%positive _ Hn1 Hann)
      as (_ & _ & _ & Hopen).
    apply Hopen. discriminate.
Defined.

(** A password that is the empty string is no password for [get_account]:
    the test [account.password and ...] is false on it. *)
Lemma empty_password_not_checked s number l a supplied :
  accounts s !! number = Some l → heap s !! l = Some a →
  password a = Some "" →
  BankingSystem.get_account number supplied s = (Return l, s).
Proof.
  intros Hn Hl Hpw. by rewrite (get_account_run s number l a Hn Hl), Hpw.
Qed.

(** ** C7: statistics *)

Lemma amounts_of_cons kinds t log :
  amounts_of kinds (t :: log) =
  if bool_decide (type t ∈ kinds)
  then amount t :: amounts_of kinds log
  else amounts_of kinds log.
Proof.
  unfold amounts_of. rewrite filter_cons.
  case_bool_decide; by case_decide.
Qed.

Lemma sum_Z_amounts_of kinds log :
  sum_Z (amounts_of kinds log) = total_of kinds log.
Proof.
  induction log as [|t log IH]; [done|].
  rewrite amounts_of_cons. simpl. case_bool_decide; simpl; lia.
Qed.

Lemma length_amounts_of kinds log :
  length (amounts_of kinds log) = count_of kinds log.
Proof.
  induction log as [|t log IH]; [done|].
  rewrite amounts_of_cons. simpl. case_bool_decide; simpl; lia.
Qed.

Lemma wrap_int64_small z : in_int64 z = true → wrap_int64 z = z.
Proof.
  unfold in_int64, wrap_int64. intros [H1 H2]%andb_true_iff.
  apply Z.leb_le in H1. apply Z.ltb_lt in H2.
  rewrite Z.mod_small by lia. lia.
Qed.

(** The total of the dictionary, when the amounts and their sum fit
    [int64]. *)
Lemma guarded_sum kinds log :
  fits_int64 (amounts_of kinds log) →
  int_value (if is_empty (amounts_of kinds log) then PyInt 0
             else np_sum (amounts_of kinds log)) = Some (total_of kinds log).
Proof.
  intros [Hall Hsum]. rewrite <- sum_Z_amounts_of.
  destruct (amounts_of kinds log) as [|x l] eqn:E; [done|].
  cbn [is_empty np_sum]. rewrite Hall. cbn [int_value].
  by rewrite wrap_int64_small.
Qed.

(** The average of the dictionary, when the amounts add up exactly in
    [float64]. *)
Lemma guarded_mean kinds log :
  sum_Z (Z.abs <$> amounts_of kinds log) <= 2 ^ 53 →
  (if is_empty (amounts_of kinds log) then PyInt 0
   else np_mean (amounts_of kinds log)) = rounded_mean kinds log.
Proof.
  intros Hsmall. unfold rounded_mean.
  rewrite <- length_amounts_of, <- sum_Z_amounts_of.
  destruct (amounts_of kinds log) as [|x l] eqn:E; [done|].
  cbn [is_empty np_mean length].
  by rewrite (proj2 (Z.leb_le _ _) Hsmall).
Qed.

(** C7, as stated, fails when a sum leaves the range of [int64]: for two
    deposits of [2^62] the total of the deposits is [-2^63], not [2^63]. *)
Lemma int64_total_wraps :
  ¬ statistics_as_specified (transaction_history two_large_deposits)
      (get_summary_statistics two_large_deposits).
Proof.
  intros (Htotal & _). vm_compute in Htotal. discriminate Htotal.
Qed.

(** What [get_summary_statistics] returns for [two_large_deposits]. *)
Lemma int64_total_wraps_outcome :
  total_deposits (get_summary_statistics two_large_deposits) = NpInt64 (- 2 ^ 63) ∧
  total_of ["deposit"; "transfer_in"] (transaction_history two_large_deposits) = 2 ^ 63 ∧
  balance two_large_deposits = 2 ^ 63.
Proof. by vm_compute. Qed.

(** C7, amended.  [get_summary_statistics] is a function of the
    transaction log alone, and the number of transactions is the length of
    the log.  When the deposit-like amounts and their sum fit [int64], the
    total of deposits is their sum, and likewise for the withdrawal-like
    amounts; NumPy adds in [int64].  When the absolute values of the
    deposit-like amounts add up to at most [2^53], the average deposit is
    the quotient of their sum by their number in [float64], that is the
    arithmetic mean rounded to the nearest [float64], and the literal [0]
    when there is none; likewise for the withdrawals.  On the log [deposit
    100, withdrawal 30, deposit 50] the dictionary holds total deposits
    150, total withdrawals 30, average deposit 75, average withdrawal 30
    and 3 transactions. *)
Theorem summary_statistics_correct :
  (∀ a b, transaction_history a = transaction_history b →
     get_summary_statistics a = get_summary_statistics b) ∧
  (∀ a, total_transactions (get_summary_statistics a) =
        length (transaction_history a)) ∧
  (∀ a, fits_int64 (amounts_of ["deposit"; "transfer_in"] (transaction_history a)) →
     int_value (total_deposits (get_summary_statistics a)) =
     Some (total_of ["deposit"; "transfer_in"] (transaction_history a))) ∧
  (∀ a, fits_int64 (amounts_of ["withdrawal"; "transfer_out"] (transaction_history a)) →
     int_value (total_withdrawals (get_summary_statistics a)) =
     Some (total_of ["withdrawal"; "transfer_out"] (transaction_history a))) ∧
  (∀ a, sum_Z (Z.abs <$> amounts_of ["deposit"; "transfer_in"]
                           (transaction_history a)) <= 2 ^ 53 →
     average_deposit (get_summary_statistics a) =
     rounded_mean ["deposit"; "transfer_in"] (transaction_history a)) ∧
  (∀ a, sum_Z (Z.abs <$> amounts_of ["withdrawal"; "transfer_out"]
                           (transaction_history a)) <= 2 ^ 53 →
     average_withdrawal (get_summary_statistics a) =
     rounded_mean ["withdrawal"; "transfer_out"] (transaction_history a)) ∧
  (∀ name number type bal pw d1 d2 d3 b1 b2 b3,
     let a := mk_account name number type bal
                [mk_transaction d1 "deposit" 100 b1 None;
                 mk_transaction d2 "withdrawal" 30 b2 None;
                 mk_transaction d3 "deposit" 50 b3 None] pw in
     total_deposits (get_summary_statistics a) = NpInt64 150 ∧
     total_withdrawals (get_summary_statistics a) = NpInt64 30 ∧
     has_value (average_deposit (get_summary_statistics a)) (inject_Z 75) ∧
     has_value (average_withdrawal (get_summary_statistics a)) (inject_Z 30) ∧
     total_transactions (get_summary_statistics a) = 3%nat).
Proof.
  split; [|split; [|split; [|split; [|split; [|split]]]]].
  - intros a b Heq. unfold get_summary_statistics. by rewrite Heq.
  - intros a. unfold get_summary_statistics.
    by destruct (transaction_history a).
  - intros a Hfits. unfold get_summary_statistics.
    destruct (transaction_history a) as [|t log] eqn:E; [done|].
    cbn [is_empty total_deposits]. by apply guarded_sum.
  - intros a Hfits. unfold get_summary_statistics.
    destruct (transaction_history a) as [|t log] eqn:E; [done|].
    cbn [is_empty total_withdrawals]. by apply guarded_sum.
  - intros a Hsmall. unfold get_summary_statistics.
    destruct (transaction_history a) as [|t log] eqn:E; [done|].
    cbn [is_empty average_deposit]. by apply guarded_mean.
  - intros a Hsmall. unfold get_summary_statistics.
    destruct (transaction_history a) as [|t log] eqn:E; [done|].
    cbn [is_empty average_withdrawal]. by apply guarded_mean.
  - intros. split; [done|]. split; [done|]. split; [|split; [|done]].
    + eexists. split; [vm_compute; reflexivity|]. reflexivity.
    + eexists. split; [vm_compute; reflexivity|]. reflexivity.
Qed.

Lemma summary_statistics_correct_witness :
  int_value (total_deposits (get_summary_statistics three_small_deposits)) = Some 4 ∧
  average_deposit (get_summary_statistics three_small_deposits) =
    rounded_mean ["deposit"; "transfer_in"] (transaction_history three_small_deposits).
Proof.
  destruct summary_statistics_correct as (_ & _ & Htotal & _ & Hmean & _).
  split.
  - apply (Htotal three_small_deposits). split; vm_compute; reflexivity.
  - apply (Hmean three_small_deposits). vm_compute. discriminate.
Defined.

(** The mean of 1, 1 and 2 is [4/3], which is no [float64]: the average of
    the dictionary is the [float64] next to it, below it by less than
    [2^-53]. *)
Lemma average_is_rounded :
  ∃ q, value (average_deposit (get_summary_statistics three_small_deposits)) = Some q ∧
       Qlt q (mean_of ["deposit"; "transfer_in"]
                (transaction_history three_small_deposits)) ∧
       Qlt (mean_of ["deposit"; "transfer_in"]
              (transaction_history three_small_deposits) - q)
           (Qpower (inject_Z 2) (-53)).
Proof.
  eexists. split; [vm_compute; reflexivity|]. split; reflexivity.
Qed.

(** ** C8: opening an account *)

(** C8, as stated, fails on an account type that is neither ["savings"] nor
    ["current"]: [create_account] opens the account. *)
Lemma create_account_any_type :
  ¬ create_account_as_specified BankingSystem.empty "Bob" "checking" 0 None noon noon.
Proof.
  intros [Hreject _].
  destruct Hreject as (e & He & _).
  - intros (_ & [?|?] & _); discriminate.
  - vm_compute in He. discriminate He.
Qed.

(** C8, amended.  [create_account] requires a holder name that is not
    empty, an account type that is not empty, and an initial balance that
    is not negative.  On an input that violates one of the three it fails
    with the invalid-input error and the state, hence the set of accounts,
    is unchanged; on an input that meets them it returns the number of the
    new account, under which the ledger then holds that account, and the
    ledger is saved. *)
Theorem create_account_validation (s : State) (name type : string) (initial : Z)
    (pw : option string) (now_number now_record : datetime) :
  (name = "" ∨ type = "" ∨ initial < 0 →
     rejects (BankingSystem.create_account name type initial pw now_number now_record)
       s InvalidInput) ∧
  (name ≠ "" → type ≠ "" → 0 <= initial →
     opens_account s name type initial pw now_number now_record).
Proof.
  split; [apply create_account_rejected|].
  intros Hname Htype Hinit. eexists. split; [by apply create_account_run|].
  split; [|done].
  unfold account_at. cbn [saved accounts heap].
  rewrite lookup_insert_eq. cbn [mbind option_bind].
  by rewrite lookup_insert_eq.
Qed.

Lemma create_account_validation_witness :
  rejects (BankingSystem.create_account "" "savings" 10 None noon noon)
    BankingSystem.empty InvalidInput ∧
  opens_account BankingSystem.empty "Bob" "checking" 0 None noon noon.
Proof.
  split.
  - apply (create_account_validation BankingSystem.empty "" "savings" 10 None noon noon).
    by left.
  - apply (create_account_validation BankingSystem.empty "Bob" "checking" 0 None noon noon).
    + discriminate.
    + discriminate.
    + lia.
Defined.

(** ** C9: end to end *)

(** From any ledger, when the two accounts get different numbers the run
    ends as the specification says: 1000 on the first account, 300 on the
    second, and the four records on the first. *)
Lemma end_to_end_distinct_numbers s t_a t_b :
  BankAccount._generate_account_number t_a ≠ BankAccount._generate_account_number t_b →
  ∃ a b,
    account_at (run_calls (end_to_end t_a t_b) s)
      (BankAccount._generate_account_number t_a) = Some a ∧
    account_at (run_calls (end_to_end t_a t_b) s)
      (BankAccount._generate_account_number t_b) = Some b ∧
    balance a = 1000 ∧ balance b = 300 ∧
    type <$> transaction_history a =
      ["deposit"; "deposit"; "withdrawal"; "transfer_out"].
Proof.
  intros Hdiff.
  set (nA := BankAccount._generate_account_number t_a) in *.
  set (nB := BankAccount._generate_account_number t_b) in *.
  unfold end_to_end, run_calls. cbn [foldl run_call].
  fold nA nB.
  rewrite (create_account_run s) by (done || lia). cbn [snd].
  fold nA.
  set (lA := fresh (dom (heap s))).
  set (a0 := opened "Ann" "savings" 1000 None t_a t_a).
  set (s1 := saved _).
  assert (accounts s1 !! nA = Some lA) as Hn1 by apply lookup_insert_eq.
  assert (heap s1 !! lA = Some a0) as Hl1 by apply lookup_insert_eq.
  rewrite (ledger_deposit_unprotected s1 nA lA a0) by (done || lia).
  cbn [snd].
  set (a1 := deposited t_a 500 a0).
  set (s2 := saved _).
  assert (accounts s2 !! nA = Some lA) as Hn2 by apply Hn1.
  assert (heap s2 !! lA = Some a1) as Hl2 by apply lookup_insert_eq.
  rewrite (ledger_withdraw_unprotected s2 nA lA a1) by (done || (vm_compute; split; discriminate)).
  cbn [snd].
  set (a2 := withdrawn t_a 200 a1).
  set (s3 := saved _).
  assert (accounts s3 !! nA = Some lA) as Hn3 by apply Hn1.
  assert (heap s3 !! lA = Some a2) as Hl3 by apply lookup_insert_eq.
  rewrite (create_account_run s3) by (done || lia). cbn [snd].
  fold nB.
  set (lB := fresh (dom (heap s3))).
  set (b0 := opened "Bob" "savings" 0 None t_b t_b).
  set (s4 := saved _).
  assert (lA ≠ lB) as Hloc.
  { intros Heq. apply (is_fresh (dom (heap s3))). fold lB. rewrite <- Heq.
    apply elem_of_dom. eauto. }
  assert (accounts s4 !! nA = Some lA) as Hn4.
  { unfold s4. cbn [saved accounts]. by rewrite lookup_insert_ne. }
  assert (accounts s4 !! nB = Some lB) as Hn4' by apply lookup_insert_eq.
  assert (heap s4 !! lA = Some a2) as Hl4.
  { unfold s4. cbn [saved heap]. by rewrite lookup_insert_ne. }
  assert (heap s4 !! lB = Some b0) as Hl4' by apply lookup_insert_eq.
  rewrite (ledger_transfer_run s4 nA lA Hn4 nB lB) by done.
  rewrite (transfer_run s4 lA a2 Hl4 300 lB b0) by (done || (vm_compute; split; discriminate)).
  cbn [snd].
  eexists _, _. unfold account_at. cbn [saved with_heap accounts heap].
  rewrite Hn4, Hn4'. cbn [mbind option_bind].
  rewrite lookup_insert_ne, lookup_insert_eq, lookup_insert_eq by done.
  split; [reflexivity|]. split; [reflexivity|].
  by vm_compute.
Qed.

(** C9, when the two accounts are opened within one second: the second
    account replaces the first under the one number, the transfer is a
    transfer from the new, empty account to itself and is rejected, and the
    account under the first number ends with balance 0 and an empty log. *)
Theorem end_to_end_same_second :
  let s4 := run_calls (take 4 (end_to_end noon noon_and_a_bit)) BankingSystem.empty in
  let s := run_calls (end_to_end noon noon_and_a_bit) BankingSystem.empty in
  BankAccount._generate_account_number noon_and_a_bit =
    BankAccount._generate_account_number noon ∧
  (BankingSystem.transfer "ACC20240315120000" "ACC20240315120000" 300
     noon_and_a_bit noon_and_a_bit s4).1 =
    Raise (ValueError "Insufficient funds for transfer") ∧
  account_holder_name <$> account_at s "ACC20240315120000" = Some "Bob" ∧
  balance <$> account_at s "ACC20240315120000" = Some 0 ∧
  transaction_history <$> account_at s "ACC20240315120000" = Some [].
Proof. by vm_compute. Qed.

(** ** C10: transfers and credentials *)

(** What [BankAccount.transfer] can raise. *)
Lemma transfer_raises s self amt target now_out now_in e :
  (BankAccount.transfer self amt target now_out now_in s).1 = Raise e →
  e = ValueError "Transfer amount must be positive" ∨
  e = ValueError "Insufficient funds for transfer" ∨
  e = NoObject.
Proof.
  destruct (decide (amt <= 0)).
  { rewrite (transfer_nonpositive s self) by done. naive_solver. }
  destruct (heap s !! self) as [a|] eqn:Hself.
  - destruct (decide (amt <= balance a)).
    + destruct (decide (self = target)) as [<-|Hne].
      { by rewrite (transfer_self_run s self a) by (done || lia). }
      destruct (heap s !! target) as [b|] eqn:Htarget.
      { by rewrite (transfer_run s self a Hself amt target b) by (done || lia). }
      unfold BankAccount.transfer.
      rewrite bool_decide_eq_false_2 by lia.
      unfold_monad. rewrite Hself. simpl.
      rewrite bool_decide_eq_false_2 by lia. simpl.
      rewrite lookup_insert_ne, Htarget by done. naive_solver.
    + rewrite (transfer_insufficient s self a) by (done || lia). naive_solver.
  - unfold BankAccount.transfer.
    rewrite bool_decide_eq_false_2 by lia.
    unfold_monad. rewrite Hself. naive_solver.
Qed.

(** C10.  The ledger's [transfer] takes no credential and checks none: for
    two numbers the ledger holds and an amount that is positive and at most
    the balance of the source, it returns [True], whatever the passwords of
    the two accounts are; and whatever its arguments, it never raises the
    unauthorized error. *)
Theorem transfer_checks_no_credential (s : State) (from to : string) (amt : Z)
    (now_out now_in : datetime) :
  (∀ lf lt a b,
     accounts s !! from = Some lf → accounts s !! to = Some lt →
     heap s !! lf = Some a → heap s !! lt = Some b →
     0 < amt <= balance a →
     (BankingSystem.transfer from to amt now_out now_in s).1 = Return true) ∧
  (∀ e, (BankingSystem.transfer from to amt now_out now_in s).1 = Raise e →
     kind_of e ≠ Some Unauthorized).
Proof.
  split.
  - intros lf lt a b Hf Ht Ha Hb Hamt.
    rewrite (ledger_transfer_run s from lf Hf to lt) by done.
    destruct (decide (lf = lt)) as [<-|Hne].
    + by rewrite (transfer_self_run s lf a Ha).
    + by rewrite (transfer_run s lf a Ha amt lt b).
  - intros e. destruct (accounts s !! from) as [lf|] eqn:Hf.
    2: { rewrite ledger_transfer_no_source by done. by intros [= <-]. }
    destruct (accounts s !! to) as [lt|] eqn:Ht.
    2: { rewrite (ledger_transfer_no_target _ _ _ _ _ _ lf) by done. by intros [= <-]. }
    rewrite (ledger_transfer_run s from lf Hf to lt) by done.
    pose proof (transfer_raises s lf amt lt now_out now_in) as Hraise.
    destruct (BankAccount.transfer lf amt lt now_out now_in s) as [[r|e'] s'];
      simpl in *; [done|].
    intros [= <-]. by destruct (Hraise _ eq_refl) as [->|[->| ->]].
Qed.

Lemma transfer_checks_no_credential_witness :
  (BankingSystem.transfer "ACC20240315120000" "ACC20240315120001" 300
     noon_plus_1s noon_plus_1s ledger_all_protected).1 = Return true.
Proof.
  apply (proj1 (transfer_checks_no_credential ledger_all_protected
           "ACC20240315120000" "ACC20240315120001" 300 noon_plus_1s noon_plus_1s)
           1%positive 2%positive
           (opened "Ann" "savings" 1000 (Some "pw-a") noon noon)
           (opened "Bob" "current" 0 (Some "pw-b") noon_plus_1s noon_plus_1s)).
  - vm_compute. reflexivity.
  - vm_compute. reflexivity.
  - vm_compute. reflexivity.
  - vm_compute. reflexivity.
  - vm_compute. split; [reflexivity | discriminate].
Defined.

(** * Further properties of the code *)

(** ** Account numbers and clock readings *)

Lemma digit_inj n m : digit n = digit m → (n mod 10 = m mod 10)%nat.
Proof.
  unfold digit. intros H. apply (f_equal nat_of_ascii) in H.
  pose proof (Nat.mod_upper_bound n 10 ltac:(discriminate)).
  pose proof (Nat.mod_upper_bound m 10 ltac:(discriminate)).
  rewrite !nat_ascii_embedding in H by lia. lia.
Qed.

Lemma two_digits_inj (n m : nat) :
  (n < 100 → m < 100 →
   (n / 10) mod 10 = (m / 10) mod 10 → n mod 10 = m mod 10 → n = m)%nat.
Proof.
  intros Hn Hm H1 H0.
  apply Nat2Z.inj. apply (f_equal Z.of_nat) in H1, H0.
  rewrite !Nat2Z.inj_mod, !Nat2Z.inj_div in *.
  change (Z.of_nat 10) with 10 in *.
  Z.div_mod_to_equations; lia.
Qed.

Lemma four_digits_inj (n m : nat) :
  Z.of_nat n <= 9999 → Z.of_nat m <= 9999 →
  ((n / 1000) mod 10 = (m / 1000) mod 10 → (n / 100) mod 10 = (m / 100) mod 10 →
   (n / 10) mod 10 = (m / 10) mod 10 → n mod 10 = m mod 10 → n = m)%nat.
Proof.
  intros Hn Hm H3 H2 H1 H0.
  apply Nat2Z.inj. apply (f_equal Z.of_nat) in H3, H2, H1, H0.
  rewrite !Nat2Z.inj_mod, !Nat2Z.inj_div in *.
  change (Z.of_nat 10) with 10 in *. change (Z.of_nat 100) with 100 in *.
  change (Z.of_nat 1000) with 1000 in *.
  Z.div_mod_to_equations; lia.
Qed.

Lemma strftime_inj d1 d2 :
  valid_datetime d1 → valid_datetime d2 →
  strftime_YmdHMS d1 = strftime_YmdHMS d2 → same_second d1 d2.
Proof.
  intros (Hy1 & (Hm1 & Hd1 & Hh1 & Hmi1 & Hs1) & _)
         (Hy2 & (Hm2 & Hd2 & Hh2 & Hmi2 & Hs2) & _).
  unfold strftime_YmdHMS, pad4, pad2. cbn [String.append].
  intros H.
  injection H as Es0 Es1 Emi0 Emi1 Eh0 Eh1 Ed0 Ed1 Em0 Em1 Ey0 Ey1 Ey2 Ey3.
  apply digit_inj in Es0, Es1, Emi0, Emi1, Eh0, Eh1, Ed0, Ed1, Em0, Em1,
    Ey0, Ey1, Ey2, Ey3.
  unfold same_second. repeat split.
  - apply four_digits_inj; (done || lia).
  - apply two_digits_inj; (done || lia).
  - apply two_digits_inj; (done || lia).
  - apply two_digits_inj; (done || lia).
  - apply two_digits_inj; (done || lia).
  - apply two_digits_inj; (done || lia).
Qed.

Lemma acc_prefix_inj d1 d2 :
  BankAccount._generate_account_number d1 = BankAccount._generate_account_number d2 →
  strftime_YmdHMS d1 = strftime_YmdHMS d2.
Proof.
  unfold BankAccount._generate_account_number.
  generalize (strftime_YmdHMS d1), (strftime_YmdHMS d2). intros x y H.
  cbv [String.append] in H. by injection H.
Qed.

Lemma strftime_same_second d1 d2 :
  same_second d1 d2 → strftime_YmdHMS d1 = strftime_YmdHMS d2.
Proof.
  intros (Hy & Hm & Hd & Hh & Hmi & Hs). unfold strftime_YmdHMS.
  by rewrite Hy, Hm, Hd, Hh, Hmi, Hs.
Qed.

(** X1.  The account number has 17 characters and begins with ["ACC"];
    for two readings of the clock it is the same exactly when the readings
    agree down to the second. *)
Theorem account_number_same_iff_same_second (d1 d2 : datetime) :
  valid_datetime d1 → valid_datetime d2 →
  String.length (BankAccount._generate_account_number d1) = 17%nat ∧
  String.prefix "ACC" (BankAccount._generate_account_number d1) = true ∧
  (BankAccount._generate_account_number d1 = BankAccount._generate_account_number d2
   ↔ same_second d1 d2).
Proof.
  intros Hv1 Hv2. split; [done|]. split; [done|]. split.
  - intros H. apply strftime_inj; try done.
    by apply acc_prefix_inj.
  - intros H. unfold BankAccount._generate_account_number.
    by rewrite (strftime_same_second d1 d2).
Qed.

Lemma account_number_same_iff_same_second_witness :
  BankAccount._generate_account_number noon =
    BankAccount._generate_account_number noon_and_a_bit ∧
  BankAccount._generate_account_number noon ≠
    BankAccount._generate_account_number noon_plus_1s.
Proof.
  assert (valid_datetime noon) as Hn by (unfold valid_datetime; simpl; lia).
  assert (valid_datetime noon_and_a_bit) as Hb by (unfold valid_datetime; simpl; lia).
  assert (valid_datetime noon_plus_1s) as Hp by (unfold valid_datetime; simpl; lia).
  split.
  - apply (account_number_same_iff_same_second noon noon_and_a_bit Hn Hb).
    by vm_compute.
  - intros H.
    apply (account_number_same_iff_same_second noon noon_plus_1s Hn Hp) in H.
    destruct H as (_ & _ & _ & _ & _ & H). discriminate H.
Defined.

(** ** What a call can do *)

Lemma run_call_outcome c s : well_formed s → outcome s c (run_call c s).
Proof.
  intros Hwf. destruct c as [name type initial pw d1 d2|n amt now|n amt now|from to amt d1 d2];
    cbn [run_call].
  - destruct (decide (name = "" ∨ type = "" ∨ initial < 0)) as [Hbad|Hgood].
    + destruct (create_account_rejected s name type initial pw d1 d2 Hbad) as (e & -> & _).
      constructor.
    + rewrite create_account_run by (try lia; naive_solver).
      constructor; (try lia; naive_solver).
  - destruct (accounts s !! n) as [l|] eqn:Hn.
    2: { rewrite ledger_deposit_missing by done. constructor. }
    destruct (Hwf _ _ Hn) as (a & Ha & _).
    rewrite (ledger_deposit_run s n l a Hn Ha).
    destruct (truthy (password a)); [constructor|].
    destruct (decide (0 < amt)).
    + rewrite (deposit_run s l a Ha) by done. by eapply call_deposited.
    + rewrite (deposit_nonpositive s l) by lia. constructor.
  - destruct (accounts s !! n) as [l|] eqn:Hn.
    2: { rewrite ledger_withdraw_missing by done. constructor. }
    destruct (Hwf _ _ Hn) as (a & Ha & _).
    rewrite (ledger_withdraw_run s n l a Hn Ha).
    destruct (truthy (password a)); [constructor|].
    destruct (decide (0 < amt)); [destruct (decide (amt <= balance a))|].
    + rewrite (withdraw_run s l a Ha) by done. by eapply call_withdrawn.
    + rewrite (withdraw_insufficient s l a Ha) by lia. constructor.
    + rewrite (withdraw_nonpositive s l) by lia. constructor.
  - destruct (accounts s !! from) as [lf|] eqn:Hf.
    2: { rewrite ledger_transfer_no_source by done. constructor. }
    destruct (accounts s !! to) as [lt|] eqn:Ht.
    2: { rewrite (ledger_transfer_no_target _ _ _ _ _ _ lf) by done. constructor. }
    destruct (Hwf _ _ Hf) as (a & Ha & _).
    destruct (Hwf _ _ Ht) as (b & Hb & _).
    rewrite (ledger_transfer_run s from lf Hf to lt) by done.
    destruct (decide (0 < amt)); [destruct (decide (amt <= balance a))|].
    + destruct (decide (lf = lt)) as [<-|Hne].
      * rewrite (transfer_self_run s lf a Ha) by done.
        by eapply call_self_transferred.
      * rewrite (transfer_run s lf a Ha amt lt b) by done.
        by eapply call_transferred.
    + rewrite (transfer_insufficient s lf a Ha) by lia. constructor.
    + rewrite (transfer_nonpositive s lf) by lia. constructor.
Qed.

Lemma outcome_effects s c s' : outcome s c s' → rtc effect s s'.
Proof.
  intros [c0|name type initial pw d1 d2 Hname Htype Hinit
          |n l a amt now Hn Ha Hamt|n l a amt now Hn Ha Hamt
          |from to lf lt a b amt d1 d2 Hf Ht Hne Ha Hb Hamt
          |from to l a amt d1 d2 Hf Ht Ha Hamt].
  - apply rtc_refl.
  - eapply rtc_l; [by apply (effect_open s name type initial pw d1 d2)|].
    apply rtc_once, effect_save.
  - eapply rtc_l; [apply (effect_update s l a (deposited now amt a)); [done|by constructor]|].
    apply rtc_once, effect_save.
  - eapply rtc_l; [apply (effect_update s l a (withdrawn now amt a)); [done|by constructor]|].
    apply rtc_once, effect_save.
  - eapply rtc_l.
    { apply (effect_update s lf a (debited d1 amt (account_number b) a));
        [done|by constructor]. }
    eapply rtc_l.
    { apply (effect_update _ lt b (credited d2 amt (account_number a) b)).
      - unfold with_heap. cbn [heap]. by rewrite lookup_insert_ne.
      - constructor. lia. }
    apply rtc_once, effect_save.
  - eapply rtc_l.
    { apply (effect_update s l a (debited d1 amt (account_number a) a));
        [done|by constructor]. }
    eapply rtc_l.
    { apply (effect_update _ l (debited d1 amt (account_number a) a)
               (credited d2 amt (account_number a)
                  (debited d1 amt (account_number a) a))).
      - unfold with_heap. cbn [heap]. by rewrite lookup_insert_eq.
      - constructor. lia. }
    unfold with_heap. cbn [heap accounts file]. rewrite insert_insert_eq.
    apply rtc_once, effect_save.
Qed.

Lemma account_step_identity a a' : account_step a a' → same_identity a a'.
Proof. by intros []. Qed.

Lemma fresh_not_allocated s l a :
  heap s !! l = Some a → l ≠ fresh (dom (heap s)).
Proof.
  intros Hl ->. apply (is_fresh (dom (heap s))), elem_of_dom. eauto.
Qed.

Lemma effect_well_formed s s' : well_formed s → effect s s' → well_formed s'.
Proof.
  intros Hwf [l a a' Hl Hstep|name type initial pw d1 d2 Hname Htype Hinit|].
  - intros n l' Hn. cbn [with_heap heap accounts] in *.
    destruct (Hwf _ _ Hn) as (b & Hb & Hbn & Hne0).
    destruct (decide (l = l')) as [<-|Hne].
    + exists a'. rewrite lookup_insert_eq. split; [done|]. split; [|done].
      destruct (account_step_identity _ _ Hstep) as (_ & -> & _). congruence.
    + exists b. by rewrite lookup_insert_ne.
  - intros n l. cbn [heap accounts]. rewrite lookup_insert. case_decide as Hn.
    + intros [= <-]. eexists. rewrite lookup_insert_eq. split; [done|].
      by rewrite opened_number, <- Hn.
    + intros Hl. destruct (Hwf _ _ Hl) as (a & Ha & Han).
      exists a. split; [|done]. rewrite lookup_insert_ne; [done|].
      apply not_eq_sym. by eapply fresh_not_allocated.
  - done.
Qed.

Lemma effects_well_formed s s' : rtc effect s s' → well_formed s → well_formed s'.
Proof. induction 1; eauto using effect_well_formed. Qed.

Lemma run_call_well_formed c s : well_formed s → well_formed (run_call c s).
Proof.
  intros Hwf. eapply effects_well_formed; [|done].
  by eapply outcome_effects, run_call_outcome.
Qed.

Lemma run_calls_well_formed cs s : well_formed s → well_formed (run_calls cs s).
Proof.
  revert s. induction cs as [|c cs IH]; intros s Hwf; [done|].
  cbn [run_calls foldl]. apply IH, run_call_well_formed, Hwf.
Qed.

Lemma run_calls_effects cs s : well_formed s → rtc effect s (run_calls cs s).
Proof.
  revert s. induction cs as [|c cs IH]; intros s Hwf; [apply rtc_refl|].
  cbn [run_calls foldl]. etrans.
  - by eapply outcome_effects, run_call_outcome.
  - apply IH, run_call_well_formed, Hwf.
Qed.

(** A property of accounts that new accounts have and successful
    operations keep holds of all accounts after any effects. *)
Lemma effects_keep (P : BankAccount → Prop) :
  (∀ a a', P a → account_step a a' → P a') →
  (∀ name type initial pw d1 d2, 0 <= initial → P (opened name type initial pw d1 d2)) →
  ∀ s s', rtc effect s s' →
    (∀ l a, heap s !! l = Some a → P a) → ∀ l a, heap s' !! l = Some a → P a.
Proof.
  intros Hstep Hopen s s' Hrtc.
  induction Hrtc as [s|s s1 s' Heff _ IH]; [done|].
  intros HP. apply IH. clear IH.
  destruct Heff as [l a a' Hl Hs|name type initial pw d1 d2 Hname Htype Hinit|].
  - intros l' b. cbn [with_heap heap]. rewrite lookup_insert. case_decide.
    + intros [= <-]. eauto.
    + apply HP.
  - intros l' b. cbn [heap]. rewrite lookup_insert. case_decide.
    + intros [= <-]. by apply Hopen.
    + apply HP.
  - apply HP.
Qed.

(** A reflexive and transitive relation between the states of an account
    that successful operations respect relates every account to what it
    has become after any effects. *)
Lemma effects_relate (R : relation BankAccount) `{!Reflexive R, !Transitive R} :
  (∀ a a', account_step a a' → R a a') →
  ∀ s s', rtc effect s s' →
    ∀ l a, heap s !! l = Some a → ∃ a', heap s' !! l = Some a' ∧ R a a'.
Proof.
  intros Hstep s s' Hrtc.
  induction Hrtc as [s|s s1 s' Heff _ IH]; intros l a Hl; [by exists a|].
  assert (∃ a1, heap s1 !! l = Some a1 ∧ R a a1) as (a1 & Hl1 & HR1).
  { destruct Heff as [l0 a0 a0' Hl0 Hs|name type initial pw d1 d2 Hname Htype Hinit|].
    - cbn [with_heap heap]. destruct (decide (l0 = l)) as [->|Hne].
      + exists a0'. rewrite lookup_insert_eq. split; [done|].
        assert (a0 = a) as -> by congruence. by apply Hstep.
      + exists a. by rewrite lookup_insert_ne.
    - cbn [heap]. exists a. split; [|done]. rewrite lookup_insert_ne; [done|].
      apply not_eq_sym. by eapply fresh_not_allocated.
    - by exists a. }
  destruct (IH _ _ Hl1) as (a' & Hl' & HR'). exists a'. split; [done|]. by etrans.
Qed.

(** ** Invariants of the accounts *)

#[local] Instance later_state_refl : Reflexive later_state.
Proof. by intros a. Qed.

#[local] Instance later_state_trans : Transitive later_state.
Proof.
  intros a b c [(H1 & H2 & H3 & H4) Hp] [(H1' & H2' & H3' & H4') Hp'].
  split; [|by etrans]. unfold same_identity. repeat split; congruence.
Qed.

Lemma account_step_later a a' : account_step a a' → later_state a a'.
Proof.
  intros Hstep. split; [by apply account_step_identity|].
  destruct Hstep; by apply prefix_app_r.
Qed.

(** X2.  Histories are append-only and identities are fixed: after any
    sequence of calls on a well-formed ledger, every account object that
    existed before still exists, with the same holder name, number, type
    and password, and with a history that begins with its old history. *)
Theorem history_append_only (s : State) (cs : list call) (l : loc) (a : BankAccount) :
  well_formed s → heap s !! l = Some a →
  ∃ a', heap (run_calls cs s) !! l = Some a' ∧
        same_identity a a' ∧
        transaction_history a `prefix_of` transaction_history a'.
Proof.
  intros Hwf Hl.
  destruct (effects_relate later_state account_step_later s (run_calls cs s)
              (run_calls_effects cs s Hwf) l a Hl) as (a' & Hl' & Hid & Hpre).
  by exists a'.
Qed.

(** X3.  Balances never go negative: if no account of a well-formed ledger
    has a negative balance, none has after any sequence of calls. *)
Theorem balances_never_negative (s : State) (cs : list call) :
  well_formed s → (∀ l a, heap s !! l = Some a → 0 <= balance a) →
  ∀ l a, heap (run_calls cs s) !! l = Some a → 0 <= balance a.
Proof.
  intros Hwf. apply (effects_keep (λ a, 0 <= balance a)).
  - intros a a' Ha []; simpl; lia.
  - intros name type initial pw d1 d2 Hinit. unfold opened.
    by case_bool_decide.
  - by apply run_calls_effects.
Qed.

(** X4.  Every recorded amount is positive: if this holds of all
    histories of a well-formed ledger, it holds after any sequence of
    calls. *)
Theorem recorded_amounts_positive (s : State) (cs : list call) :
  well_formed s → (∀ l a, heap s !! l = Some a → amounts_positive a) →
  ∀ l a, heap (run_calls cs s) !! l = Some a → amounts_positive a.
Proof.
  intros Hwf. apply (effects_keep amounts_positive).
  - unfold amounts_positive. intros a a' Ha []; simpl;
      (apply Forall_app; split; [done|]); apply Forall_singleton; simpl; lia.
  - intros name type initial pw d1 d2 Hinit. unfold opened, amounts_positive.
    case_bool_decide; simpl; [|done]. apply Forall_singleton. simpl. lia.
  - by apply run_calls_effects.
Qed.

(** X5.  The last record of a history shows the current balance: if this
    holds of all accounts of a well-formed ledger, it holds after any
    sequence of calls. *)
Theorem last_record_shows_balance (s : State) (cs : list call) :
  well_formed s → (∀ l a, heap s !! l = Some a → last_record_current a) →
  ∀ l a, heap (run_calls cs s) !! l = Some a → last_record_current a.
Proof.
  intros Hwf. apply (effects_keep last_record_current).
  - unfold last_record_current. intros a a' Ha []; simpl;
      intros t; rewrite last_snoc; by intros [= <-].
  - intros name type initial pw d1 d2 Hinit. unfold opened, last_record_current.
    case_bool_decide; simpl; [|done]. by intros t [= <-].
  - by apply run_calls_effects.
Qed.

Lemma effect_numbers s s' n :
  effect s s' → is_Some (accounts s !! n) → is_Some (accounts s' !! n).
Proof.
  intros [l a a' Hl Hs|name type initial pw d1 d2 Hname Htype Hinit|]; [done| |done].
  cbn [accounts]. rewrite lookup_insert. by case_decide.
Qed.

(** X6.  No call removes an account number: the numbers a well-formed
    ledger holds are still held after any sequence of calls. *)
Theorem numbers_never_removed (s : State) (cs : list call) :
  well_formed s → dom (accounts s) ⊆ dom (accounts (run_calls cs s)).
Proof.
  intros Hwf n. rewrite !elem_of_dom.
  pose proof (run_calls_effects cs s Hwf) as Hrtc. clear Hwf.
  induction Hrtc as [s0|s0 s1 s2 Heff _ IH]; [done|].
  intros Hn. by apply IH, (effect_numbers s0 s1).
Qed.

(** ** What a call leaves alone *)

Lemma account_at_update_other s l a' n :
  accounts s !! n ≠ Some l →
  account_at (saved (with_heap (<[l := a']> (heap s)) s)) n = account_at s n.
Proof.
  intros Hn. unfold account_at. cbn [saved with_heap heap accounts].
  destruct (accounts s !! n) as [l'|]; [|done]. cbn [mbind option_bind].
  rewrite lookup_insert_ne; [done|congruence].
Qed.

Lemma other_number_other_object s n n0 l :
  well_formed s → accounts s !! n0 = Some l → n ≠ n0 → accounts s !! n ≠ Some l.
Proof.
  intros Hwf Hn0 Hne Hn. apply Hne. by apply (well_formed_injective s n n0 l).
Qed.

Ltac not_named Hn :=
  let E := fresh in intros E; apply Hn; rewrite ?E; repeat constructor.

(** X7.  A call changes only the accounts it names: in a well-formed
    ledger, the account under any number other than the one given to
    [deposit] or [withdraw], the two given to [transfer], or the one
    [create_account] generates, is after the call what it was before. *)
Theorem call_changes_only_named (s : State) (c : call) (n : string) :
  well_formed s → n ∉ names c →
  account_at (run_call c s) n = account_at s n.
Proof.
  intros Hwf Hn. pose proof (run_call_outcome c s Hwf) as Hout.
  revert Hout. generalize (run_call c s). intros s' Hout.
  destruct Hout as [c0|name type initial pw d1 d2 Hname Htype Hinit
          |n0 l a amt now Hn0 Ha Hamt|n0 l a amt now Hn0 Ha Hamt
          |from to lf lt a b amt d1 d2 Hf Ht Hne Ha Hb Hamt
          |from to l a amt d1 d2 Hf Ht Ha Hamt]; cbn [names] in Hn.
  - done.
  - unfold account_at. cbn [saved heap accounts].
    rewrite lookup_insert_ne by not_named Hn.
    destruct (accounts s !! n) as [l'|] eqn:Hl'; [|done]. cbn [mbind option_bind].
    destruct (Hwf _ _ Hl') as (a' & Ha' & _).
    rewrite lookup_insert_ne; [done|].
    apply not_eq_sym. by eapply fresh_not_allocated.
  - apply account_at_update_other.
    apply (other_number_other_object s n n0); [done|done|not_named Hn].
  - apply account_at_update_other.
    apply (other_number_other_object s n n0); [done|done|not_named Hn].
  - unfold account_at. cbn [saved with_heap heap accounts].
    destruct (accounts s !! n) as [l'|] eqn:Hl'; [|done]. cbn [mbind option_bind].
    rewrite !lookup_insert_ne; [done| |].
    + intros <-. apply (other_number_other_object s n from lf Hwf Hf); [not_named Hn|done].
    + intros <-. apply (other_number_other_object s n to lt Hwf Ht); [not_named Hn|done].
  - apply account_at_update_other.
    apply (other_number_other_object s n from); [done|done|not_named Hn].
Qed.

Lemma call_changes_only_named_witness :
  account_at (run_call (Deposit "ACC20240315120000" 50 noon_plus_1s) ledger_of_two)
    "ACC20240315120001" =
  account_at ledger_of_two "ACC20240315120001".
Proof.
  apply call_changes_only_named.
  - exact (proj1 (ledger_inv_run_calls _ _ ledger_inv_empty)).
  - cbn [names]. intros Hin. apply list_elem_of_singleton in Hin. discriminate Hin.
Defined.

(** ** Conservation *)

Lemma sum_of_balances_update (h : gmap loc BankAccount) l a a' :
  h !! l = Some a →
  map_fold (λ _ a acc, balance a + acc) 0 (<[l := a']> h) =
  map_fold (λ _ a acc, balance a + acc) 0 h - balance a + balance a'.
Proof.
  intros Hl. rewrite <- insert_delete_eq.
  rewrite map_fold_insert_L; [|intros; lia|apply lookup_delete_eq].
  rewrite (map_fold_delete_L _ _ l a h); [lia|intros; lia|done].
Qed.

(** X8.  A transfer neither makes nor loses money: in a well-formed
    ledger the sum of the balances of all accounts is after the call what
    it was before, whether the transfer is accepted, rejected, or from an
    account to itself. *)
Theorem transfer_conserves_total (s : State) (from to : string) (amt : Z)
    (now_out now_in : datetime) :
  well_formed s →
  total_balance (BankingSystem.transfer from to amt now_out now_in s).2 =
  total_balance s.
Proof.
  intros Hwf.
  pose proof (run_call_outcome (Transfer from to amt now_out now_in) s Hwf) as Hout.
  cbn [run_call] in Hout. revert Hout.
  generalize (BankingSystem.transfer from to amt now_out now_in s).2. intros s' Hout.
  inversion Hout as [c0| | |
          |from' to' lf lt a b amt' d1 d2 Hf Ht Hne Ha Hb Hamt
          |from' to' l a amt' d1 d2 Hf Ht Ha Hamt]; subst.
  - done.
  - unfold total_balance. cbn [saved with_heap heap].
    rewrite (sum_of_balances_update _ lt b) by (by rewrite lookup_insert_ne).
    rewrite (sum_of_balances_update _ lf a) by done. simpl. lia.
  - unfold total_balance. cbn [saved with_heap heap].
    rewrite (sum_of_balances_update _ l a) by done. simpl. lia.
Qed.

Lemma transfer_conserves_total_witness :
  total_balance (BankingSystem.transfer "ACC20240315120000" "ACC20240315120001" 300
                   noon_plus_1s noon_plus_1s ledger_of_two).2 =
  total_balance ledger_of_two.
Proof.
  apply transfer_conserves_total.
  exact (proj1 (ledger_inv_run_calls _ _ ledger_inv_empty)).
Defined.

(** ** The file *)

Lemma outcome_saved_or_same s c s' :
  outcome s c s' → s' = s ∨ file s' = Some (BankingSystem.pickled s').
Proof. intros []; auto. Qed.

(** X9.  A call of the ledger is all or nothing towards the file: in a
    well-formed ledger, [create_account], [deposit], [withdraw] and
    [transfer] either leave the whole state as it was, file included, or
    end with the file holding the pickle of the dictionary as it is after
    the call. *)
Theorem call_saved_or_unchanged (s : State) (c : call) :
  well_formed s →
  run_call c s = s ∨
  file (run_call c s) = Some (BankingSystem.pickled (run_call c s)).
Proof.
  intros Hwf. by eapply outcome_saved_or_same, run_call_outcome.
Qed.

Lemma call_saved_or_unchanged_witness :
  run_call (Withdraw "ACC20240315120000" 5000 noon_plus_1s) ledger_of_two =
    ledger_of_two ∨
  file (run_call (Withdraw "ACC20240315120000" 5000 noon_plus_1s) ledger_of_two) =
    Some (BankingSystem.pickled
            (run_call (Withdraw "ACC20240315120000" 5000 noon_plus_1s) ledger_of_two)).
Proof.
  apply call_saved_or_unchanged.
  exact (proj1 (ledger_inv_run_calls _ _ ledger_inv_empty)).
Defined.

Lemma run_call_in_sync c s : well_formed s → in_sync s → in_sync (run_call c s).
Proof.
  intros Hwf Hsync.
  destruct (outcome_saved_or_same s c _ (run_call_outcome c s Hwf)) as [->|Hfile];
    [done|by left].
Qed.

Lemma run_calls_in_sync cs s : well_formed s → in_sync s → in_sync (run_calls cs s).
Proof.
  revert s. induction cs as [|c cs IH]; intros s Hwf Hsync; [done|].
  cbn [run_calls foldl]. apply IH.
  - by apply run_call_well_formed.
  - by apply run_call_in_sync.
Qed.

(** The accounts a pair of store and dictionary holds, by number. *)
Lemma load_entries_lookup (entries : list (string * BankAccount)) :
  NoDup entries.*1 →
  let hd := foldr (λ e hd, BankingSystem.load_entry hd e) (∅, ∅) entries in
  (∀ n, hd.2 !! n ≫= (λ l, hd.1 !! l) =
        (list_to_map entries : gmap string BankAccount) !! n) ∧
  (∀ n l, hd.2 !! n = Some l → is_Some (hd.1 !! l)).
Proof.
  induction entries as [|[k a] entries IH]; intros Hnodup; cbv zeta; cbn [foldr].
  - cbn [fst snd]. split; [done|]. intros n l. by rewrite lookup_empty.
  - apply NoDup_cons in Hnodup as [Hk Hnodup].
    destruct (IH Hnodup) as [IHlookup IHalloc]. clear IH.
    set (hd := foldr _ _ entries) in *.
    unfold BankingSystem.load_entry. cbn [fst snd].
    change (list_to_map ((k, a) :: entries))
      with (<[k := a]> (list_to_map entries : gmap string BankAccount)).
    split.
    + intros n. destruct (decide (k = n)) as [<-|Hne].
      * rewrite !lookup_insert_eq. cbn [mbind option_bind].
        by rewrite lookup_insert_eq.
      * rewrite !(lookup_insert_ne _ k n) by done. rewrite <- IHlookup.
        destruct (hd.2 !! n) as [l|] eqn:Hl; [|done]. cbn [mbind option_bind].
        rewrite lookup_insert_ne; [done|].
        intros <-. destruct (IHalloc _ _ Hl) as [b Hb].
        apply (is_fresh (dom hd.1)), elem_of_dom. eauto.
    + intros n l. rewrite lookup_insert. case_decide.
      * intros [= <-]. rewrite lookup_insert_eq. eauto.
      * intros Hl. destruct (IHalloc _ _ Hl) as [b Hb].
        rewrite lookup_insert_ne; [eauto|].
        intros <-. apply (is_fresh (dom hd.1)), elem_of_dom. eauto.
Qed.

Lemma foldl_as_foldr {A B} (f : A → B → A) (a : A) (l : list B) :
  foldl f a l = foldr (λ e acc, f acc e) a (reverse l).
Proof.
  revert a. induction l as [|x l IH]; intros a; [done|].
  cbn [foldl]. by rewrite reverse_cons, foldr_snoc, IH.
Qed.

Lemma init_lookup f n :
  (BankingSystem.__init__ f).2 !! n ≫= (λ l, (BankingSystem.__init__ f).1 !! l) =
  BankingSystem._load_data f !! n.
Proof.
  unfold BankingSystem.__init__. rewrite foldl_as_foldr.
  assert (NoDup (reverse (map_to_list (BankingSystem._load_data f))).*1) as Hnodup.
  { rewrite fmap_reverse, reverse_Permutation. apply NoDup_fst_map_to_list. }
  destruct (load_entries_lookup _ Hnodup) as [Hlookup _].
  etrans; [apply Hlookup|].
  f_equal.
  rewrite <- (list_to_map_to_list (BankingSystem._load_data f)) at 2.
  apply list_to_map_proper; [done|apply reverse_Permutation].
Qed.

Lemma restart_lookup s n :
  in_sync s → account_at (restart s) n = account_at s n.
Proof.
  intros Hsync. unfold account_at at 1, restart. cbn [heap accounts].
  rewrite init_lookup. unfold file_found.
  destruct Hsync as [Hfile|[Hfile Hempty]]; rewrite Hfile; cbn [BankingSystem._load_data].
  - unfold BankingSystem.pickled, account_at. by rewrite lookup_omap.
  - unfold account_at. by rewrite Hempty, !lookup_empty.
Qed.

(** X11.  What the ledger has done survives a restart: starting from a
    well-formed ledger whose file holds it (as the empty ledger without a
    file does), after any sequence of calls, accepted or rejected, a new
    [BankingSystem] started on the file holds under every number the same
    account, with the same balance and history, as the running one. *)
Theorem restart_recovers_accounts (s : State) (cs : list call) (n : string) :
  well_formed s → in_sync s →
  account_at (restart (run_calls cs s)) n = account_at (run_calls cs s) n.
Proof.
  intros Hwf Hsync. by apply restart_lookup, run_calls_in_sync.
Qed.

Lemma restart_recovers_accounts_witness :
  account_at (restart (run_calls (end_to_end noon noon_plus_1s) BankingSystem.empty))
    "ACC20240315120000" =
  account_at (run_calls (end_to_end noon noon_plus_1s) BankingSystem.empty)
    "ACC20240315120000".
Proof.
  apply restart_recovers_accounts.
  - exact (proj1 ledger_inv_empty).
  - right. split; reflexivity.
Defined.

(** ** Reading an account through the ledger *)

Section Accessors.
Context (s : State) (number : string) (l : loc) (a : BankAccount).
Hypothesis Hnumber : accounts s !! number = Some l.
Hypothesis Hl : heap s !! l = Some a.

Lemma ledger_details_run :
  BankingSystem.get_account_details number s =
  if truthy (password a)
  then (Raise (ValueError "Invalid password"), s)
  else (Return (Details.mk (account_holder_name a) (account_number a)
                  (account_type a) (balance a)), s).
Proof.
  unfold BankingSystem.get_account_details.
  unfold mbind at 1, M_bind at 1. rewrite (get_account_run s number l a Hnumber Hl).
  destruct (truthy (password a)) eqn:E; simpl.
  - rewrite bool_decide_eq_true_2; [done|]. intros Heq. by rewrite Heq in E.
  - unfold BankAccount.get_account_details. unfold_monad. by rewrite Hl.
Qed.

Lemma ledger_history_run :
  BankingSystem.get_transaction_history number s =
  if truthy (password a)
  then (Raise (ValueError "Invalid password"), s)
  else (Return (transaction_history a), s).
Proof.
  unfold BankingSystem.get_transaction_history.
  unfold mbind at 1, M_bind at 1. rewrite (get_account_run s number l a Hnumber Hl).
  destruct (truthy (password a)) eqn:E; simpl.
  - rewrite bool_decide_eq_true_2; [done|]. intros Heq. by rewrite Heq in E.
  - unfold BankAccount.get_transaction_history. unfold_monad. by rewrite Hl.
Qed.

Lemma ledger_statistics_run :
  BankingSystem.get_summary_statistics number s =
  if truthy (password a)
  then (Raise (ValueError "Invalid password"), s)
  else (Return (get_summary_statistics a), s).
Proof.
  unfold BankingSystem.get_summary_statistics.
  unfold mbind at 1, M_bind at 1. rewrite (get_account_run s number l a Hnumber Hl).
  destruct (truthy (password a)) eqn:E; simpl.
  - rewrite bool_decide_eq_true_2; [done|]. intros Heq. by rewrite Heq in E.
  - unfold_monad. by rewrite Hl.
Qed.

End Accessors.

(** X12.  On an account without a password the three accessors of the
    ledger return the details, the history and the statistics of the
    account as it is, and change nothing. *)
Theorem ledger_accessors_read (s : State) (number : string) (l : loc)
    (a : BankAccount) :
  accounts s !! number = Some l → heap s !! l = Some a → ¬ has_password a →
  BankingSystem.get_account_details number s =
    (Return (Details.mk (account_holder_name a) (account_number a)
               (account_type a) (balance a)), s) ∧
  BankingSystem.get_transaction_history number s =
    (Return (transaction_history a), s) ∧
  BankingSystem.get_summary_statistics number s =
    (Return (get_summary_statistics a), s).
Proof.
  intros Hn Hl Hpw. unfold has_password in Hpw.
  rewrite (ledger_details_run s number l a Hn Hl),
    (ledger_history_run s number l a Hn Hl),
    (ledger_statistics_run s number l a Hn Hl).
  by destruct (truthy (password a)).
Qed.

Lemma ledger_accessors_read_witness :
  BankingSystem.get_account_details "ACC20240315120000" ledger_of_two =
    (Return (Details.mk "Ann" "ACC20240315120000" "savings" 1000), ledger_of_two).
Proof.
  apply (ledger_accessors_read ledger_of_two "ACC20240315120000" 1%positive
           (opened "Ann" "savings" 1000 None noon noon)).
  - vm_compute. reflexivity.
  - vm_compute. reflexivity.
  - discriminate.
Defined.

(** X13.  The three accessors of the ledger resolve the account with
    [get_account(account_number)], with no password: on a number the
    ledger does not hold they raise the not-found error, and on an account
    that has a password they raise the unauthorized error, whatever the
    caller knows; the state is unchanged. *)
Theorem ledger_accessors_rejected (s : State) (number : string) :
  (accounts s !! number = None →
     rejects (BankingSystem.get_account_details number) s NotFound ∧
     rejects (BankingSystem.get_transaction_history number) s NotFound ∧
     rejects (BankingSystem.get_summary_statistics number) s NotFound) ∧
  (∀ l a, accounts s !! number = Some l → heap s !! l = Some a → has_password a →
     rejects (BankingSystem.get_account_details number) s Unauthorized ∧
     rejects (BankingSystem.get_transaction_history number) s Unauthorized ∧
     rejects (BankingSystem.get_summary_statistics number) s Unauthorized).
Proof.
  split.
  - intros Hnone.
    split; [|split]; apply (rejects_intro _ _ (ValueError "Account not found")); try done.
    + unfold BankingSystem.get_account_details.
      unfold mbind at 1, M_bind at 1. by rewrite get_account_missing.
    + unfold BankingSystem.get_transaction_history.
      unfold mbind at 1, M_bind at 1. by rewrite get_account_missing.
    + unfold BankingSystem.get_summary_statistics.
      unfold mbind at 1, M_bind at 1. by rewrite get_account_missing.
  - intros l a Hn Hl Hpw. unfold has_password in Hpw.
    split; [|split]; apply (rejects_intro _ _ (ValueError "Invalid password")); try done.
    + by rewrite (ledger_details_run s number l a Hn Hl), Hpw.
    + by rewrite (ledger_history_run s number l a Hn Hl), Hpw.
    + by rewrite (ledger_statistics_run s number l a Hn Hl), Hpw.
Qed.

Lemma ledger_accessors_rejected_witness :
  rejects (BankingSystem.get_transaction_history "ACC19990101000000")
    ledger_of_two NotFound ∧
  rejects (BankingSystem.get_account_details "ACC20240315120001")
    ledger_of_two Unauthorized.
Proof.
  split.
  - apply (ledger_accessors_rejected ledger_of_two "ACC19990101000000").
    vm_compute. reflexivity.
  - apply (proj2 (ledger_accessors_rejected ledger_of_two "ACC20240315120001")
             2%positive
             (opened "Bob" "current" 0 (Some "s3cret") noon_plus_1s noon_plus_1s)).
    + vm_compute. reflexivity.
    + vm_compute. reflexivity.
    + reflexivity.
Defined.

(** ** Operations in sequence and at the bounds *)

(** X14.  A deposit followed by a withdrawal of the same amount brings the
    balance back: on an account without a password and with a balance that
    is not negative, after an accepted [deposit] the [withdraw] of the
    same amount is accepted too, the balance is what it was, and the
    history has grown by the two records, in that order. *)
Theorem deposit_then_withdraw_restores (s : State) (number : string) (l : loc)
    (a : BankAccount) (amt : Z) (now now' : datetime) :
  accounts s !! number = Some l → heap s !! l = Some a → ¬ has_password a →
  0 <= balance a → 0 < amt →
  ∃ s1 s2 a2,
    BankingSystem.deposit number amt now s = (Return true, s1) ∧
    BankingSystem.withdraw number amt now' s1 = (Return true, s2) ∧
    account_at s2 number = Some a2 ∧
    balance a2 = balance a ∧
    transaction_history a2 =
      (transaction_history a ++
         [mk_transaction now "deposit" amt (balance a + amt) None;
          mk_transaction now' "withdrawal" amt (balance a) None])%list.
Proof.
  intros Hn Hl Hpw Hbal Hamt.
  eexists _, _, _. split; [by apply (ledger_deposit_unprotected s number l a)|].
  split.
  - apply (ledger_withdraw_unprotected _ number l (deposited now amt a)).
    + done.
    + cbn [saved with_heap heap]. by rewrite lookup_insert_eq.
    + done.
    + simpl. lia.
  - unfold account_at. cbn [saved with_heap heap accounts].
    rewrite Hn. cbn [mbind option_bind]. rewrite lookup_insert_eq.
    split; [done|]. split; simpl.
    + lia.
    + rewrite <- app_assoc. f_equal. unfold deposit_record, withdrawal_record.
      simpl. do 2 f_equal. f_equal. lia.
Qed.

Lemma deposit_then_withdraw_restores_witness :
  ∃ s1 s2 a2,
    BankingSystem.deposit "ACC20240315120000" 40 noon_plus_1s ledger_of_two =
      (Return true, s1) ∧
    BankingSystem.withdraw "ACC20240315120000" 40 noon_plus_1s s1 = (Return true, s2) ∧
    account_at s2 "ACC20240315120000" = Some a2 ∧
    balance a2 = balance (opened "Ann" "savings" 1000 None noon noon) ∧
    transaction_history a2 =
      (transaction_history (opened "Ann" "savings" 1000 None noon noon) ++
         [mk_transaction noon_plus_1s "deposit" 40
            (balance (opened "Ann" "savings" 1000 None noon noon) + 40) None;
          mk_transaction noon_plus_1s "withdrawal" 40
            (balance (opened "Ann" "savings" 1000 None noon noon)) None])%list.
Proof.
  apply (deposit_then_withdraw_restores ledger_of_two "ACC20240315120000" 1%positive
           (opened "Ann" "savings" 1000 None noon noon) 40 noon_plus_1s noon_plus_1s).
  - vm_compute. reflexivity.
  - vm_compute. reflexivity.
  - discriminate.
  - vm_compute. discriminate.
  - lia.
Defined.

(** X15.  The bound of [withdraw] is the balance itself: an account with a
    positive balance can be emptied, which leaves balance 0 and one more
    record, and the same call for one unit more is rejected with
    insufficient funds and changes nothing. *)
Theorem withdraw_up_to_balance (s : State) (self : loc) (a : BankAccount)
    (now : datetime) :
  heap s !! self = Some a → 0 < balance a →
  (∃ s' a', BankAccount.withdraw self (balance a) now s = (Return true, s') ∧
            heap s' !! self = Some a' ∧ balance a' = 0 ∧
            transaction_history a' =
              (transaction_history a ++
                 [mk_transaction now "withdrawal" (balance a) 0 None])%list) ∧
  rejects (BankAccount.withdraw self (balance a + 1) now) s InsufficientFunds.
Proof.
  intros Hself Hpos. split.
  - eexists _, _. split; [apply (withdraw_run s self a Hself); lia|].
    cbn [with_heap heap]. rewrite lookup_insert_eq. split; [done|].
    split; simpl; [lia|]. unfold withdrawal_record. do 2 f_equal. f_equal. lia.
  - apply (rejects_intro _ _ (ValueError "Insufficient funds")); [|done].
    apply (withdraw_insufficient s self a Hself); lia.
Qed.

Lemma withdraw_up_to_balance_witness :
  rejects (BankAccount.withdraw 1%positive
             (balance (opened "Ann" "savings" 1000 None noon noon) + 1) noon)
    ledger_of_two InsufficientFunds.
Proof.
  apply (withdraw_up_to_balance ledger_of_two 1%positive
           (opened "Ann" "savings" 1000 None noon noon) noon).
  - vm_compute. reflexivity.
  - vm_compute. reflexivity.
Defined.

(** X16.  A transfer from an account to itself is accepted like any other:
    for a number the ledger holds and an amount that is positive and at
    most the balance, the call returns [True], the balance is what it was,
    and the history has two more records, a [transfer_out] and then a
    [transfer_in] that shows the old balance again. *)
Theorem transfer_to_self (s : State) (number : string) (l : loc)
    (a : BankAccount) (amt : Z) (now_out now_in : datetime) :
  accounts s !! number = Some l → heap s !! l = Some a → 0 < amt <= balance a →
  ∃ s' a',
    BankingSystem.transfer number number amt now_out now_in s = (Return true, s') ∧
    account_at s' number = Some a' ∧
    balance a' = balance a ∧
    (fmap type (transaction_history a') =
       fmap type (transaction_history a) ++ ["transfer_out"; "transfer_in"])%list ∧
    (balance_after <$> last (transaction_history a')) = Some (balance a).
Proof.
  intros Hn Hl Hamt. eexists _, _. split.
  { rewrite (ledger_transfer_run s number l Hn number l) by done.
    by rewrite (transfer_self_run s l a Hl). }
  unfold account_at. cbn [saved with_heap heap accounts].
  rewrite Hn. cbn [mbind option_bind]. rewrite lookup_insert_eq.
  split; [done|]. split; [simpl; lia|]. split.
  - simpl. by rewrite <- app_assoc, !fmap_app.
  - simpl. rewrite last_snoc. simpl. f_equal. lia.
Qed.

Lemma transfer_to_self_witness :
  ∃ s' a',
    BankingSystem.transfer "ACC20240315120000" "ACC20240315120000" 30 noon noon
      ledger_of_one = (Return true, s') ∧
    account_at s' "ACC20240315120000" = Some a' ∧
    balance a' = balance (opened "Ann" "savings" 100 None noon noon) ∧
    (fmap type (transaction_history a') =
       fmap type (transaction_history (opened "Ann" "savings" 100 None noon noon)) ++
         ["transfer_out"; "transfer_in"])%list ∧
    (balance_after <$> last (transaction_history a')) =
      Some (balance (opened "Ann" "savings" 100 None noon noon)).
Proof.
  apply (transfer_to_self ledger_of_one "ACC20240315120000" 1%positive
           (opened "Ann" "savings" 100 None noon noon) 30 noon noon).
  - vm_compute. reflexivity.
  - vm_compute. reflexivity.
  - vm_compute. split; [reflexivity|discriminate].
Defined.

(** ** Statistics and the balance *)

Lemma signed_sum_is_net log :
  sum_Z (signed <$> log) =
  total_of ["deposit"; "transfer_in"] log - total_of ["withdrawal"; "transfer_out"] log.
Proof.
  induction log as [|t log IH]; [done|].
  cbn [fmap list_fmap sum_Z foldr total_of]. fold (sum_Z (signed <$> log)).
  rewrite IH. unfold signed.
  destruct (bool_decide (type t ∈ ["deposit"; "transfer_in"])) eqn:E1;
    destruct (bool_decide (type t ∈ ["withdrawal"; "transfer_out"])) eqn:E2; try lia.
  apply bool_decide_eq_true in E1, E2.
  rewrite !elem_of_cons, elem_of_nil in E1, E2.
  destruct E1 as [E1|[E1|[]]]; rewrite E1 in E2;
    destruct E2 as [E2|[E2|[]]]; discriminate E2.
Qed.

Lemma statistics_totals a :
  fits_int64 (amounts_of ["deposit"; "transfer_in"] (transaction_history a)) →
  fits_int64 (amounts_of ["withdrawal"; "transfer_out"] (transaction_history a)) →
  int_value (total_deposits (get_summary_statistics a)) =
    Some (total_of ["deposit"; "transfer_in"] (transaction_history a)) ∧
  int_value (total_withdrawals (get_summary_statistics a)) =
    Some (total_of ["withdrawal"; "transfer_out"] (transaction_history a)).
Proof.
  intros Hdep Hwd. unfold get_summary_statistics.
  destruct (transaction_history a) as [|t log]; [done|].
  cbn [is_empty total_deposits total_withdrawals]. split; by apply guarded_sum.
Qed.

(** X17.  The statistics agree with the balance as long as NumPy's sums do
    not leave [int64]: for every account of a ledger that keeps its
    invariants (as the empty ledger does), after any sequence of calls, if
    the deposit-like amounts and their sum fit [int64], and so do the
    withdrawal-like amounts and their sum, then the total of deposits
    minus the total of withdrawals reported by [get_summary_statistics]
    is the balance of the account. *)
Theorem statistics_net_is_balance (s : State) (cs : list call) (n : string)
    (a : BankAccount) :
  ledger_inv s → account_at (run_calls cs s) n = Some a →
  fits_int64 (amounts_of ["deposit"; "transfer_in"] (transaction_history a)) →
  fits_int64 (amounts_of ["withdrawal"; "transfer_out"] (transaction_history a)) →
  ∃ d w,
    int_value (total_deposits (get_summary_statistics a)) = Some d ∧
    int_value (total_withdrawals (get_summary_statistics a)) = Some w ∧
    d - w = balance a.
Proof.
  intros Hinv Ha Hdep Hwd.
  destruct (ledger_inv_run_calls cs s Hinv) as [_ Hbal].
  unfold account_at in Ha.
  destruct (accounts (run_calls cs s) !! n) as [l|]; [|done].
  cbn [mbind option_bind] in Ha.
  destruct (statistics_totals a Hdep Hwd) as [Hd Hw].
  eexists _, _. split; [exact Hd|]. split; [exact Hw|].
  rewrite (Hbal l a Ha). symmetry. apply signed_sum_is_net.
Qed.

Lemma statistics_net_is_balance_witness :
  ∃ d w,
    int_value (total_deposits (get_summary_statistics first_account_at_the_end)) =
      Some d ∧
    int_value (total_withdrawals (get_summary_statistics first_account_at_the_end)) =
      Some w ∧
    d - w = balance first_account_at_the_end.
Proof.
  apply (statistics_net_is_balance BankingSystem.empty (end_to_end noon noon_plus_1s)
           "ACC20240315120000" first_account_at_the_end).
  - apply ledger_inv_empty.
  - vm_compute. reflexivity.
  - split; vm_compute; reflexivity.
  - split; vm_compute; reflexivity.
Defined.

(** ** Instances of the invariants *)

Lemma empty_ledger_no_object (P : BankAccount → Prop) :
  ∀ l a, heap BankingSystem.empty !! l = Some a → P a.
Proof. intros l a. cbn [BankingSystem.empty heap]. by rewrite lookup_empty. Qed.

Lemma history_append_only_witness :
  ∃ a',
    heap (run_calls (end_to_end noon noon_plus_1s) ledger_of_two) !! 1%positive =
      Some a' ∧
    same_identity (opened "Ann" "savings" 1000 None noon noon) a' ∧
    transaction_history (opened "Ann" "savings" 1000 None noon noon)
      `prefix_of` transaction_history a'.
Proof.
  apply history_append_only.
  - exact (proj1 (ledger_inv_run_calls _ _ ledger_inv_empty)).
  - vm_compute. reflexivity.
Defined.

Lemma balances_never_negative_witness :
  ∃ a, heap (run_calls (end_to_end noon noon_plus_1s) BankingSystem.empty) !! 1%positive =
         Some a ∧ 0 <= balance a.
Proof.
  assert (∃ a, heap (run_calls (end_to_end noon noon_plus_1s) BankingSystem.empty)
                 !! 1%positive = Some a) as [a Ha]
    by (eexists; vm_compute; reflexivity).
  exists a. split; [exact Ha|].
  apply (balances_never_negative BankingSystem.empty (end_to_end noon noon_plus_1s)
           (proj1 ledger_inv_empty) (empty_ledger_no_object _) 1%positive a Ha).
Defined.

Lemma recorded_amounts_positive_witness :
  ∃ a, heap (run_calls (end_to_end noon noon_plus_1s) BankingSystem.empty) !! 1%positive =
         Some a ∧ amounts_positive a.
Proof.
  assert (∃ a, heap (run_calls (end_to_end noon noon_plus_1s) BankingSystem.empty)
                 !! 1%positive = Some a) as [a Ha]
    by (eexists; vm_compute; reflexivity).
  exists a. split; [exact Ha|].
  apply (recorded_amounts_positive BankingSystem.empty (end_to_end noon noon_plus_1s)
           (proj1 ledger_inv_empty) (empty_ledger_no_object _) 1%positive a Ha).
Defined.

Lemma last_record_shows_balance_witness :
  ∃ a, heap (run_calls (end_to_end noon noon_plus_1s) BankingSystem.empty) !! 1%positive =
         Some a ∧ last_record_current a.
Proof.
  assert (∃ a, heap (run_calls (end_to_end noon noon_plus_1s) BankingSystem.empty)
                 !! 1%positive = Some a) as [a Ha]
    by (eexists; vm_compute; reflexivity).
  exists a. split; [exact Ha|].
  apply (last_record_shows_balance BankingSystem.empty (end_to_end noon noon_plus_1s)
           (proj1 ledger_inv_empty) (empty_ledger_no_object _) 1%positive a Ha).
Defined.

Lemma numbers_never_removed_witness :
  dom (accounts ledger_of_two) ⊆
  dom (accounts (run_calls (end_to_end noon noon_plus_1s) ledger_of_two)).
Proof.
  apply numbers_never_removed.
  exact (proj1 (ledger_inv_run_calls _ _ ledger_inv_empty)).
Defined.

(** ** The ledger after a restart *)

Lemma init_allocated f n l :
  (BankingSystem.__init__ f).2 !! n = Some l →
  is_Some ((BankingSystem.__init__ f).1 !! l).
Proof.
  unfold BankingSystem.__init__. rewrite foldl_as_foldr.
  assert (NoDup (reverse (map_to_list (BankingSystem._load_data f))).*1) as Hnodup.
  { rewrite fmap_reverse, reverse_Permutation. apply NoDup_fst_map_to_list. }
  destruct (load_entries_lookup _ Hnodup) as [_ Halloc]. apply Halloc.
Qed.

(** X18.  A restart gives a ledger that keeps its invariants: if the
    running ledger is well formed, every balance is the signed sum of its
    history, and the file holds the ledger, then the same is true of the
    new [BankingSystem] started on the file. *)
Theorem restart_keeps_invariants (s : State) :
  ledger_inv s → in_sync s →
  well_formed (restart s) ∧
  (∀ n a, account_at (restart s) n = Some a → balanced a) ∧
  in_sync (restart s).
Proof.
  intros [Hwf Hbal] Hsync.
  assert (∀ n a, account_at (restart s) n = Some a →
            account_number a = n ∧ n ≠ "" ∧ balanced a) as Hacc.
  { intros n a. rewrite (restart_lookup s n Hsync). unfold account_at.
    destruct (accounts s !! n) as [l|] eqn:Hn; [|done]. cbn [mbind option_bind].
    intros Hl. destruct (Hwf _ _ Hn) as (a0 & Ha0 & Hnum & Hne).
    assert (a0 = a) as -> by congruence. eauto. }
  split; [|split].
  - intros n l Hn. unfold restart in *. cbn [heap accounts] in *.
    destruct (init_allocated _ _ _ Hn) as [a Ha]. exists a. split; [done|].
    destruct (Hacc n a) as (Hnum & Hne & _); [|done].
    unfold account_at. cbn [heap accounts]. rewrite Hn. exact Ha.
  - intros n a Ha. by destruct (Hacc n a Ha) as (_ & _ & Hb).
  - destruct Hsync as [Hfile|[Hfile Hempty]].
    + left. unfold restart at 1. cbn [file]. rewrite Hfile. f_equal.
      apply map_eq. intros n.
      unfold BankingSystem.pickled at 2. rewrite lookup_omap.
      change (accounts (restart s) !! n ≫= (λ l, heap (restart s) !! l))
        with (account_at (restart s) n).
      rewrite (restart_lookup s n (or_introl Hfile)).
      unfold BankingSystem.pickled, account_at. by rewrite lookup_omap.
    + right. unfold restart, file_found. rewrite Hfile. done.
Qed.

Lemma restart_keeps_invariants_witness :
  well_formed (restart (run_calls (end_to_end noon noon_plus_1s) BankingSystem.empty)).
Proof.
  apply restart_keeps_invariants.
  - apply ledger_inv_run_calls, ledger_inv_empty.
  - apply run_calls_in_sync; [exact (proj1 ledger_inv_empty)|].
    right. split; reflexivity.
Defined.
